(** * astrometry-net-client: the request / session layer

    A shallow embedding of [astrometry_net_client/request.py] and
    [astrometry_net_client/client.py], and the properties of the
    specification that concern them.

    Python objects that are mutated and shared (the [data] and [settings]
    dictionaries, the [Session]) live in an explicit machine state; the
    HTTP transport ([requests.get], [requests.post]), [json.dumps], [str]
    and the configuration module are collaborators given as an interface. *)

From Stdlib Require Import ZArith String Ascii List.
From stdpp Require Import base option list gmap strings.

Local Open Scope string_scope.
Local Open Scope list_scope.

(** ** Python values *)

(** The values that travel through the layer: what [json] decodes and
    encodes.  The code never inspects a number, so integers stand for all
    of them.  A [dict] keeps its keys in insertion order, as Python does;
    [json.dumps] writes them in that order.  Values are immutable here:
    [dict.copy] is shallow, but the layer assigns to top-level keys of its
    own dictionaries only and never reaches inside a value. *)
#[warnings="-register-all"] Inductive value : Type :=
| VNone
| VBool (b : bool)
| VInt (z : Z)
| VStr (s : string)
| VList (l : list value)
| VDict (d : list (string * value)).

Abbreviation dict := (list (string * value)).

(** [d.get(k)] *)
Fixpoint dict_get (k : string) (d : dict) : option value :=
  match d with
  | [] => None
  | (k', v) :: d' => if decide (k = k') then Some v else dict_get k d'
  end.

(** [d[k] = v]: an existing key keeps its place, a new one goes last. *)
Fixpoint dict_set (k : string) (v : value) (d : dict) : dict :=
  match d with
  | [] => [(k, v)]
  | (k', v') :: d' =>
      if decide (k = k') then (k, v) :: d' else (k', v') :: dict_set k v d'
  end.

(** [{**d, **s}]: a copy of [d] updated with the items of [s] in order. *)
Definition dict_merge (d s : dict) : dict :=
  fold_left (fun acc kv => dict_set kv.1 kv.2 acc) s d.

(** A Python dict holds each key once. *)
Definition dict_wf (d : dict) : Prop := NoDup d.*1.

(** [v == s] for a string literal [s] *)
Definition value_is_str (v : value) (s : string) : bool :=
  match v with
  | VStr s' => String.eqb s' s
  | _ => false
  end.

(** ** Exceptions *)

Inductive exn : Type :=
| APIKeyError (msg : string)
| LoginFailedException (msg : string)
| NoSessionError (msg : string)
| InvalidSessionError (msg : string)
| InvalidRequest (msg : string)
| KeyError (key : string)
| AttributeError (attr : string)
| JSONDecodeError
| RequestException (msg : string)
| OSError (msg : string).

Inductive result (A : Type) : Type :=
| Ok (a : A)
| Raise (e : exn).
Arguments Ok {A} a.
Arguments Raise {A} e.

(** ** The state-and-exception monad

    A computation runs on a state [S] and either returns or raises; in both
    cases the state it leaves is kept, as a Python exception undoes
    nothing. *)
Definition M (S A : Type) : Type := S -> result A * S.

Global Instance M_ret {S} : MRet (M S) := fun A a s => (Ok a, s).
Global Instance M_bind {S} : MBind (M S) := fun A B f m s =>
  match m s with
  | (Ok a, s') => f a s'
  | (Raise e, s') => (Raise e, s')
  end.

Definition raise {S A} (e : exn) : M S A := fun s => (Raise e, s).
Definition gets {S A} (f : S -> A) : M S A := fun s => (Ok (f s), s).
Definition modify {S} (f : S -> S) : M S unit := fun s => (Ok tt, f s).

(** [try: m  except E: h]: [h e] is [Some handler] when the clause matches
    the exception [e]. *)
Definition try_except {S A} (m : M S A) (h : exn -> option (M S A)) : M S A :=
  fun s =>
    match m s with
    | (Ok a, s') => (Ok a, s')
    | (Raise e, s') =>
        match h e with
        | Some handler => handler s'
        | None => (Raise e, s')
        end
    end.

(** Lift a returned-or-raised value into a computation. *)
Definition liftR {S A} (r : result A) : M S A := fun s => (r, s).

(** ** Objects and the machine state *)

(** References to dictionary objects. *)
Definition loc : Type := positive.

(** [requests.get] and [requests.post], the two entries of
    [Request._method_dict]. *)
Inductive http_method : Type := GET | POST.

(** The classes of request.py; an instance knows its class. *)
Inductive pyclass : Type := CRequest | CPostRequest | CAuthorizedRequest.

Global Instance pyclass_eq_dec : EqDecision pyclass.
Proof. solve_decision. Defined.

(** One call of the transport: [method(url, data=payload, **arguments)]. *)
Record call : Type := {
  c_method : http_method;
  c_url : string;
  c_data : dict;
  c_kwargs : dict
}.

(** What the transport hands back: the body as text, and what [.json()]
    makes of it ([None] when decoding raises). *)
Record http_response : Type := {
  r_text : string;
  r_json : option value
}.

Inductive http_result : Type :=
| HResp (r : http_response)
| HRaise (msg : string).

(** What is observed of a run: every transport call with the class of the
    request object that issued it, and every invocation of [Session.login]
    with its [force] flag. *)
Inductive event : Type :=
| EvHttp (who : pyclass) (c : call)
| EvLogin (force : bool).

(** The attributes of a [Session]; [key] exists only after a login. *)
Record Session : Type := {
  api_key : value;
  key : option value;
  logged_in : bool
}.

(** The attributes of a [Request].  [url] is absent when none was given
    (no class of request.py has a [url] of its own); [data] and [settings]
    refer to dictionary objects. *)
Record Request : Type := {
  cls : pyclass;
  url : option string;
  method : http_method;
  data : loc;
  settings : loc;
  arguments : dict;
  response : value
}.

(** The machine: the dictionary objects, the Session object that authorized
    requests are bound to, the log of events and the standard output. *)
Record machine : Type := {
  m_dicts : gmap loc dict;
  m_session : Session;
  m_log : list event;
  m_stdout : list string
}.

Definition set_dicts (f : gmap loc dict -> gmap loc dict) (m : machine) : machine :=
  {| m_dicts := f (m_dicts m); m_session := m_session m;
     m_log := m_log m; m_stdout := m_stdout m |}.

Definition set_session (f : Session -> Session) (m : machine) : machine :=
  {| m_dicts := m_dicts m; m_session := f (m_session m);
     m_log := m_log m; m_stdout := m_stdout m |}.

Definition add_event (e : event) (m : machine) : machine :=
  {| m_dicts := m_dicts m; m_session := m_session m;
     m_log := m_log m ++ [e]; m_stdout := m_stdout m |}.

Definition add_stdout (line : string) (m : machine) : machine :=
  {| m_dicts := m_dicts m; m_session := m_session m;
     m_log := m_log m; m_stdout := m_stdout m ++ [line] |}.

Definition set_key (v : value) (s : Session) : Session :=
  {| api_key := api_key s; key := Some v; logged_in := logged_in s |}.

Definition set_logged_in (b : bool) (s : Session) : Session :=
  {| api_key := api_key s; key := key s; logged_in := b |}.

Definition set_response (v : value) (r : Request) : Request :=
  {| cls := cls r; url := url r; method := method r; data := data r;
     settings := settings r; arguments := arguments r; response := v |}.

(** The dictionary a reference points to.  References held by a running
    program point to allocated objects; one that does not reads as the
    empty dictionary. *)
Definition deref (m : machine) (l : loc) : dict := default [] (m_dicts m !! l).

(** A new dictionary object holding [d]. *)
Definition alloc (d : dict) : M machine loc := fun m =>
  let l := fresh (dom (m_dicts m)) in
  (Ok l, set_dicts (insert l d) m).

(** [l.copy()] *)
Definition copy (l : loc) : M machine loc := fun m => alloc (deref m l) m.

(** [print(line)] *)
Definition print (line : string) : M machine unit := modify (add_stdout line).

(** The transport calls of a log, oldest first. *)
Definition calls_of (log : list event) : list call :=
  omap (fun e => match e with EvHttp _ c => Some c | EvLogin _ => None end) log.

(** The number of events of a log that satisfy [p]. *)
Definition count_events (p : event -> bool) (log : list event) : nat :=
  length (List.filter p log).

Definition is_http_by (who : pyclass) (e : event) : bool :=
  match e with
  | EvHttp w _ => bool_decide (w = who)
  | EvLogin _ => false
  end.

Definition is_http (e : event) : bool :=
  match e with
  | EvHttp _ _ => true
  | EvLogin _ => false
  end.

Definition is_login (force : bool) (e : event) : bool :=
  match e with
  | EvHttp _ _ => false
  | EvLogin f => bool_decide (f = force)
  end.

(** Transport calls issued by instances of class [who]. *)
Definition http_calls_by (who : pyclass) (log : list event) : nat :=
  count_events (is_http_by who) log.

(** All transport calls. *)
Definition http_calls (log : list event) : nat := count_events is_http log.

(** Invocations of [Session.login] with the given [force] flag. *)
Definition logins (force : bool) (log : list event) : nat :=
  count_events (is_login force) log.

(** ** Collaborators

    What the layer consumes from outside: the standard library's
    [json.dumps] and [str], the [requests] transport, and the configuration
    module ([login_url], [read_api_key]), which is not part of this
    development.  The transport answers a call knowing the calls made
    before it. *)
Class Collaborators : Type := {
  json_dumps : value -> string;
  py_str : value -> string;
  transport : list call -> call -> http_result;
  login_url : string;
  read_api_key : string -> result string
}.

(** ** Strings *)

(** [str.lower] on the ASCII letters.  No character outside ASCII lowers
    to a letter of [get] or [post], so on the question the code asks
    (is the lowered name a key of [_method_dict]) this agrees with Python. *)
Definition ascii_lower (c : ascii) : ascii :=
  let n := nat_of_ascii c in
  if (65 <=? n)%nat && (n <=? 90)%nat then ascii_of_nat (n + 32) else c.

Fixpoint lower (s : string) : string :=
  match s with
  | EmptyString => EmptyString
  | String c s' => String (ascii_lower c) (lower s')
  end.

(** The text [no "session" in JSON.] *)
Definition no_session_in_json : string :=
  "no " +:+ String "034"%char ("session" +:+ String "034"%char " in JSON.").

(** ** request.py *)

(** Run a computation of the machine inside a method of a request. *)
Definition on_machine {A} (m : M machine A) : M (Request * machine) A :=
  fun s => let (a, sigma) := m s.2 in (a, (s.1, sigma)).

(** Call a method on the request object [r]; the caller keeps no reference
    to it afterwards. *)
Definition call_method {A} (r : Request) (m : M (Request * machine) A)
  : M machine A :=
  fun sigma => let (a, s) := m (r, sigma) in (a, s.2).

Module Request.
Section Request.
Context `{Collaborators}.

(** [_method_dict = {'post': requests.post, 'get': requests.get}] *)
Definition _method_dict (name : string) : option http_method :=
  if decide (name = "post") then Some POST
  else if decide (name = "get") then Some GET
  else None.

Definition default_method : string := "get".

(** [Request.__init__], run for an instance of class [c]. *)
Definition __init__ (c : pyclass) (url : option string) (method : string)
    (data settings : option loc) (kwargs : dict) : M machine Request :=
  d ← match data with None => alloc [] | Some l => copy l end;
  s ← match settings with None => alloc [] | Some l => copy l end;
  f ← match _method_dict (lower method) with
      | Some f => mret f
      | None => raise (KeyError (lower method))
      end;
  mret {| cls := c; url := url; method := f; data := d; settings := s;
          arguments := kwargs; response := VNone |}.

(** [{'request-json': json.dumps({**self.data, **self.settings})}] *)
Definition payload (sigma : machine) (self : Request) : dict :=
  [("request-json",
    VStr (json_dumps (VDict (dict_merge (deref sigma (data self))
                                        (deref sigma (settings self))))))].

(** [self.method(self.url, data=payload, **self.arguments)] *)
Definition call_transport (who : pyclass) (c : call) : M machine http_response :=
  fun sigma =>
    let sigma' := add_event (EvHttp who c) sigma in
    match transport (calls_of (m_log sigma)) c with
    | HResp r => (Ok r, sigma')
    | HRaise msg => (Raise (RequestException msg), sigma')
    end.

(** The response check of [_make_request]. *)
Definition check_response (decoded : value) : result unit :=
  match decoded with
  | VDict d =>
      if value_is_str (default (VStr "") (dict_get "status" d)) "error" then
        match dict_get "errormessage" d with
        | None => Raise (KeyError "errormessage")
        | Some (VStr err_msg) =>
            if String.eqb err_msg no_session_in_json then
              Raise (NoSessionError err_msg)
            else if String.prefix "no session with key" err_msg then
              Raise (InvalidSessionError err_msg)
            else Raise (InvalidRequest err_msg)
        | Some _ => Raise (AttributeError "startswith")
        end
      else Ok tt
  | _ => Raise (AttributeError "get")
  end.

(** The arguments [self.method] is called with. *)
Definition request_call (sigma : machine) (self : Request) (u : string) : call :=
  {| c_method := method self; c_url := u; c_data := payload sigma self;
     c_kwargs := arguments self |}.

Definition _make_request : M (Request * machine) value :=
  self ← gets fst;
  c ← gets (fun s => request_call s.2 s.1);
  u ← match url self with
      | Some u => mret u
      | None => raise (AttributeError "url")
      end;
  resp ← on_machine (call_transport (cls self) (c u));
  on_machine (print ("Response: " +:+ r_text resp));;
  decoded ← match r_json resp with
            | Some v => mret v
            | None => raise JSONDecodeError
            end;
  modify (fun s => (set_response decoded s.1, s.2));;
  liftR (check_response decoded);;
  gets (fun s => response s.1).

(** [make], as [Request] and [PostRequest] instances run it. *)
Definition make : M (Request * machine) value := _make_request.
End Request.
End Request.

Module PostRequest.
Section PostRequest.
Context `{Collaborators}.

Definition default_method : string := "post".

Definition __init__ (url : option string) (method : string)
    (data settings : option loc) (kwargs : dict) : M machine Request :=
  Request.__init__ CPostRequest url method data settings kwargs.
End PostRequest.
End PostRequest.

(** ** client.py *)

Module Session.
Section Session.
Context `{Collaborators}.

(** [os.environ.get(name)]: the value, or [None]; it raises nothing. *)
Definition os_environ_get (environ : gmap string string) (name : string)
  : result value :=
  Ok match environ !! name with
     | Some v => VStr v
     | None => VNone
     end.

Definition no_key_message : string :=
  "No api key found or given. Specify an API key using one of: " +:+
  "1. A direct argument, 2. A location of a file containing the key, " +:+
  "3. An environment variable named ASTROMETRY_API_KEY.".

Definition fresh_session (k : value) : Session :=
  {| api_key := k; key := None; logged_in := false |}.

Definition __init__ (environ : gmap string string) (api_key : value)
    (key_location : option string) : result Session :=
  match api_key with
  | VNone =>
      match key_location with
      | Some path =>
          match read_api_key path with
          | Ok k => Ok (fresh_session (VStr k))
          | Raise e => Raise e
          end
      | None =>
          match os_environ_get environ "ASTROMETRY_API_KEY" with
          | Ok k => Ok (fresh_session k)
          | Raise (KeyError _) => Raise (APIKeyError no_key_message)
          | Raise e => Raise e
          end
      end
  | k => Ok (fresh_session k)
  end.

Definition login (force : bool) : M machine unit :=
  modify (add_event (EvLogin force));;
  self ← gets m_session;
  if negb force && logged_in self then mret tt
  else
    lit ← alloc [("apikey", api_key self)];
    r ← PostRequest.__init__ (Some login_url) PostRequest.default_method
          (Some lit) None [];
    decoded ← call_method r Request.make;
    match decoded with
    | VDict d =>
        if value_is_str (default VNone (dict_get "status" d)) "success" then
          match dict_get "session" d with
          | Some k =>
              modify (set_session (set_key k));;
              modify (set_session (set_logged_in true))
          | None => raise (KeyError "session")
          end
        else raise (LoginFailedException (py_str decoded))
    | _ => raise (AttributeError "get")
    end.
End Session.
End Session.

Module AuthorizedRequest.
Section AuthorizedRequest.
Context `{Collaborators}.

(** The bound [Session] is the one of the machine. *)
Definition __init__ (url : option string) (method : string)
    (data settings : option loc) (kwargs : dict) : M machine Request :=
  Request.__init__ CAuthorizedRequest url method data settings kwargs.

(** [self.data['session'] = self.session.key] *)
Definition set_session_field : M (Request * machine) unit :=
  session ← gets (fun s => m_session s.2);
  k ← match key session with
      | Some k => mret k
      | None => raise (AttributeError "key")
      end;
  modify (fun s =>
    (s.1, set_dicts (insert (data s.1)
                       (dict_set "session" k (deref s.2 (data s.1)))) s.2)).

Definition _make_request : M (Request * machine) value :=
  on_machine (Session.login false);;
  set_session_field;;
  first ← try_except (v ← Request._make_request; mret (Some v))
            (fun e => match e with
                      | InvalidSessionError _ => Some (
                          on_machine (print "Session expired, loggin in again");;
                          on_machine (Session.login true);;
                          set_session_field;;
                          mret None)
                      | _ => None
                      end);
  match first with
  | Some v => mret v
  | None => Request._make_request
  end.

Definition make : M (Request * machine) value := _make_request.
End AuthorizedRequest.
End AuthorizedRequest.

(** [self.make()] on any instance: [_make_request] is looked up in the
    class of the instance. *)
Definition make `{Collaborators} : M (Request * machine) value :=
  self ← gets fst;
  match cls self with
  | CAuthorizedRequest => AuthorizedRequest._make_request
  | CRequest | CPostRequest => Request._make_request
  end.

(** ** Vocabulary of the properties *)

(** Two request objects that differ at most in their [response]. *)
Definition same_request (r r' : Request) : Prop :=
  cls r' = cls r /\ url r' = url r /\ method r' = method r /\
  data r' = data r /\ settings r' = settings r /\
  arguments r' = arguments r.

(** [sigma'] keeps every dictionary of [sigma], the one at [x] possibly
    excepted. *)
Definition frame (x : loc) (sigma sigma' : machine) : Prop :=
  forall l d, l ≠ x ->
    m_dicts sigma !! l = Some d -> m_dicts sigma' !! l = Some d.

(** [c] is what request [r] sends when its turn comes in some state that
    keeps the dictionaries of [sigma0], [r]'s own [data] excepted. *)
Definition sent_from `{Collaborators} (sigma0 : machine) (r : Request)
    (c : call) : Prop :=
  exists sigma u, frame (data r) sigma0 sigma /\ url r = Some u /\
    c = Request.request_call sigma r u.

(** Where an authorized send of [r] started in [sigma0] has got to: the
    request is the same, the other dictionaries are kept, and the events
    [new] logged so far hold [sends] transport calls of the request, each
    of them a send of [r], and [forced] forced logins. *)
Definition progress `{Collaborators} (sigma0 : machine) (r : Request)
    (s : Request * machine) (new : list event) (sends forced : nat) : Prop :=
  same_request r s.1 /\ frame (data r) sigma0 s.2 /\
  m_log s.2 = m_log sigma0 ++ new /\
  http_calls_by CAuthorizedRequest new = sends /\
  logins true new = forced /\
  forall c, EvHttp CAuthorizedRequest c ∈ new -> sent_from sigma0 r c.

(** Calling an operation twice in a row; the caller goes on after an
    exception of the first call. *)
Definition twice {A} (op : M machine A) (sigma : machine) : machine :=
  (op (op sigma).2).2.

(** The transport call [Session.login] makes for the API key [k]:
    a POST of [{'apikey': k}] to the login URL. *)
Definition login_call `{Collaborators} (k : value) : call :=
  {| c_method := POST; c_url := login_url;
     c_data := [("request-json", VStr (json_dumps (VDict [("apikey", k)])))];
     c_kwargs := [] |}.

(** What an authorized send with one retry logs, in order: the login,
    with its transport call unless the Session was logged in; the first
    send [c1]; the forced login and its transport call; the second send
    [c2]. *)
Definition retry_trace `{Collaborators} (sigma : machine) (c1 c2 : call)
    : list event :=
  EvLogin false ::
  (if logged_in (m_session sigma) then []
   else [EvHttp CPostRequest (login_call (api_key (m_session sigma)))]) ++
  [EvHttp CAuthorizedRequest c1;
   EvLogin true;
   EvHttp CPostRequest (login_call (api_key (m_session sigma)));
   EvHttp CAuthorizedRequest c2].

(** A Session that believes it is logged in has a key. *)
Definition session_ok (s : Session) : Prop :=
  logged_in s = true -> is_Some (key s).

(** The mapping a constructor argument stands for; [None] stands for the
    empty one. *)
Definition given (sigma : machine) (o : option loc) : dict :=
  match o with
  | Some l => deref sigma l
  | None => []
  end.

(** A constructor argument that is a mapping refers to a dictionary that
    exists. *)
Definition allocated (sigma : machine) (o : option loc) : Prop :=
  forall l, o = Some l -> is_Some (m_dicts sigma !! l).

(** ** A scripted service

    Collaborators for concrete runs: the transport answers the n-th call
    with the n-th entry of a script, whatever is asked. *)
Definition scripted (script : list http_result) (history : list call)
    (c : call) : http_result :=
  nth (length history) script (HRaise "connection refused").

(** A stand-in for [json.dumps] that shows the keys of a mapping and the
    strings they are bound to. *)
Definition render (v : value) : string :=
  match v with
  | VDict d =>
      "{" +:+ String.concat ", "
                (map (fun kv => kv.1 +:+ ": " +:+
                                match kv.2 with VStr s => s | _ => "_" end) d)
          +:+ "}"
  | _ => "_"
  end.

Definition scripted_service (script : list http_result) : Collaborators :=
  {| json_dumps := render;
     py_str := fun _ => "<response>";
     transport := scripted script;
     login_url := "http://nova.astrometry.net/api/login";
     read_api_key := fun _ => Raise (OSError "No such file or directory") |}.

Definition json_body (v : value) : http_result :=
  HResp {| r_text := "<body>"; r_json := Some v |}.

Definition login_accepted (k : string) : http_result :=
  json_body (VDict [("status", VStr "success"); ("session", VStr k)]).

Definition api_error (msg : string) : http_result :=
  json_body (VDict [("status", VStr "error"); ("errormessage", VStr msg)]).

Definition api_success : http_result :=
  json_body (VDict [("status", VStr "success"); ("jobs", VList [VInt 7])]).

(** A machine with no dictionary yet and a Session just constructed from
    the API key [k]. *)
Definition boot (k : string) : machine :=
  {| m_dicts := ∅; m_session := Session.fresh_session (VStr k);
     m_log := []; m_stdout := [] |}.

(** Scripts: the login is accepted, the first send finds the session
    expired, the forced login is accepted, and the second send succeeds or
    finds the session expired again. *)
Definition expired_once : Collaborators :=
  scripted_service [login_accepted "s1"; api_error "no session with key s1";
                    login_accepted "s2"; api_success].

Definition expired_twice : Collaborators :=
  scripted_service [login_accepted "s1"; api_error "no session with key s1";
                    login_accepted "s2"; api_error "no session with key s2"].

(** An authorized GET request whose [data] and [settings] are the
    dictionaries 1 and 2, and a machine that holds them. *)
Definition status_request : Request :=
  {| cls := CAuthorizedRequest;
     url := Some "http://nova.astrometry.net/api/jobs";
     method := GET; data := 1%positive; settings := 2%positive;
     arguments := []; response := VNone |}.

Definition booted (k : string) (d s : dict) : machine :=
  {| m_dicts := {[ 1%positive := d; 2%positive := s ]};
     m_session := Session.fresh_session (VStr k); m_log := []; m_stdout := [] |}.

(** A plain GET request on the same two dictionaries. *)
Definition plain_request : Request :=
  {| cls := CRequest; url := Some "http://nova.astrometry.net/api/jobs";
     method := GET; data := 1%positive; settings := 2%positive;
     arguments := []; response := VNone |}.

(** Scripts of one answer. *)
Definition answers (a : http_result) : Collaborators := scripted_service [a].

(** A service that turns every login down with a status that is neither
    [success] nor [error]. *)
Definition login_refused : Collaborators :=
  scripted_service [json_body (VDict [("status", VStr "failure")]);
                    json_body (VDict [("status", VStr "failure")])].

(** A service that answers the login as the API does for a key it does not
    know: an error response. *)
Definition bad_apikey : Collaborators := answers (api_error "bad apikey").

(** A machine like [booted] whose Session has logged in before and holds
    the key [session]. *)
Definition signed_in (k session : string) (d s : dict) : machine :=
  {| m_dicts := {[ 1%positive := d; 2%positive := s ]};
     m_session := {| api_key := VStr k; key := Some (VStr session);
                     logged_in := true |};
     m_log := []; m_stdout := [] |}.

(** ** Proof tools *)

Ltac unfold_monad :=
  unfold mbind, M_bind, mret, M_ret, raise, gets, modify, liftR,
    try_except, on_machine, call_method, print in *.

(** * Properties *)

(** ** Dictionaries *)

Lemma dict_get_set_eq (k : string) (v : value) (d : dict) :
  dict_get k (dict_set k v d) = Some v.
Proof.
  induction d as [|[k' v'] d IH]; simpl.
  - by rewrite decide_True.
  - destruct (decide (k = k')) as [->|Hne]; simpl.
    + by rewrite decide_True.
    + by rewrite decide_False.
Qed.

Lemma dict_get_set_ne (k k' : string) (v : value) (d : dict) :
  k ≠ k' -> dict_get k' (dict_set k v d) = dict_get k' d.
Proof.
  intros Hne. induction d as [|[k0 v0] d IH]; simpl.
  - rewrite decide_False; [done | congruence].
  - destruct (decide (k = k0)) as [->|Hk]; simpl.
    + rewrite !decide_False; [done | congruence | congruence].
    + by rewrite IH.
Qed.

Lemma dict_get_None (k : string) (d : dict) :
  dict_get k d = None <-> k ∉ d.*1.
Proof.
  induction d as [|[k' v'] d IH]; simpl.
  - split; [intros _; apply not_elem_of_nil | done].
  - rewrite not_elem_of_cons. destruct (decide (k = k')) as [->|Hne].
    + split; [done | intros [? _]; done].
    + rewrite IH. tauto.
Qed.

Lemma dict_get_Some_elem (k : string) (v : value) (d : dict) :
  dict_get k d = Some v -> (k, v) ∈ d.
Proof.
  induction d as [|[k' v'] d IH]; simpl; [done|].
  destruct (decide (k = k')) as [->|Hne].
  - intros [= ->]. apply list_elem_of_here.
  - intros Hd. apply list_elem_of_further. by apply IH.
Qed.

Lemma dict_wf_elem_get (k : string) (v : value) (d : dict) :
  dict_wf d -> (k, v) ∈ d -> dict_get k d = Some v.
Proof.
  unfold dict_wf. induction d as [|[k' v'] d IH]; simpl.
  - intros _ Hin. by apply elem_of_nil in Hin.
  - rewrite NoDup_cons. intros [Hk' Hnd] Hin.
    apply elem_of_cons in Hin as [[= -> ->]|Hin].
    + by rewrite decide_True.
    + destruct (decide (k = k')) as [->|Hne]; [|by apply IH].
      exfalso. apply Hk'. apply list_elem_of_fmap. by exists (k', v).
Qed.

Lemma dict_set_keys (k : string) (v : value) (d : dict) :
  (dict_set k v d).*1 = if decide (k ∈ d.*1) then d.*1 else d.*1 ++ [k].
Proof.
  induction d as [|[k' v'] d IH]; csimpl.
  - done.
  - destruct (decide (k = k')) as [->|Hne]; csimpl.
    + by rewrite decide_True by apply list_elem_of_here.
    + rewrite IH. destruct (decide (k ∈ d.*1)) as [Hin|Hin].
      * by rewrite decide_True by (by apply list_elem_of_further).
      * rewrite decide_False; [done|]. by apply not_elem_of_cons.
Qed.

Lemma dict_set_wf (k : string) (v : value) (d : dict) :
  dict_wf d -> dict_wf (dict_set k v d).
Proof.
  unfold dict_wf. intros Hd. rewrite dict_set_keys.
  destruct (decide (k ∈ d.*1)) as [Hin|Hin]; [done|].
  apply NoDup_app. split; [done|]. split.
  - intros x Hx Hx'. apply list_elem_of_singleton in Hx'. by subst.
  - apply NoDup_singleton.
Qed.

Lemma dict_merge_wf (d s : dict) : dict_wf d -> dict_wf (dict_merge d s).
Proof.
  unfold dict_merge. revert d.
  induction s as [|[k v] s IH]; intros d Hd; simpl; [done|].
  apply IH. by apply dict_set_wf.
Qed.

(** In [{**d, **s}] a key of [s] has the value [s] gives it, and any other
    key the value [d] gives it. *)
Lemma dict_get_merge (k : string) (d s : dict) :
  dict_wf s ->
  dict_get k (dict_merge d s) =
    match dict_get k s with
    | Some v => Some v
    | None => dict_get k d
    end.
Proof.
  unfold dict_merge, dict_wf. revert d.
  induction s as [|[k' v'] s IH]; intros d Hs; csimpl in *; [done|].
  apply NoDup_cons in Hs as [Hk' Hs]. rewrite IH by done.
  destruct (decide (k = k')) as [->|Hne].
  - apply dict_get_None in Hk' as ->. apply dict_get_set_eq.
  - destruct (dict_get k s); [done|]. apply dict_get_set_ne. congruence.
Qed.

Lemma dict_wf_singleton (k : string) (v : value) : dict_wf [(k, v)].
Proof. unfold dict_wf. simpl. apply NoDup_singleton. Qed.

(** ** The event log *)

Lemma count_events_app (p : event -> bool) (l1 l2 : list event) :
  count_events p (l1 ++ l2) = count_events p l1 + count_events p l2.
Proof. unfold count_events. by rewrite List.filter_app, length_app. Qed.

Lemma calls_of_app (l1 l2 : list event) :
  calls_of (l1 ++ l2) = calls_of l1 ++ calls_of l2.
Proof. unfold calls_of. apply omap_app. Qed.

(** ** Allocation *)

Lemma lookup_fresh (D : gmap loc dict) : D !! fresh (dom D) = None.
Proof. apply not_elem_of_dom, is_fresh. Qed.

Lemma insert_fresh_subseteq (D : gmap loc dict) (d : dict) :
  D ⊆ <[fresh (dom D) := d]> D.
Proof. apply insert_subseteq, lookup_fresh. Qed.

(** ** Running the computations *)

Lemma same_request_refl (r : Request) : same_request r r.
Proof. by repeat split. Qed.

Lemma same_request_trans (r1 r2 r3 : Request) :
  same_request r1 r2 -> same_request r2 r3 -> same_request r1 r3.
Proof.
  unfold same_request. intros (?&?&?&?&?&?) (?&?&?&?&?&?).
  repeat split; congruence.
Qed.

Lemma same_request_set_response (v : value) (r : Request) :
  same_request r (set_response v r).
Proof. by repeat split. Qed.

Section Running.
Context `{Collaborators}.

(** The base [_make_request], unfolded: one transport call, then the
    decoding and the check of what came back. *)
Lemma make_request_eq (self : Request) (sigma : machine) (u : string) :
  url self = Some u ->
  Request._make_request (self, sigma) =
    let c := Request.request_call sigma self u in
    let sigma1 := add_event (EvHttp (cls self) c) sigma in
    match transport (calls_of (m_log sigma)) c with
    | HRaise msg => (Raise (RequestException msg), (self, sigma1))
    | HResp resp =>
        let sigma2 := add_stdout ("Response: " +:+ r_text resp) sigma1 in
        match r_json resp with
        | None => (Raise JSONDecodeError, (self, sigma2))
        | Some v =>
            (match Request.check_response v with
             | Ok _ => Ok v
             | Raise e => Raise e
             end, (set_response v self, sigma2))
        end
    end.
Proof.
  intros Hu. unfold Request._make_request, Request.call_transport.
  unfold_monad. simpl. rewrite Hu. simpl.
  destruct (transport _ _) as [resp|msg]; simpl; [|done].
  destruct (r_json resp) as [v|]; simpl; [|done].
  by destruct (Request.check_response v).
Qed.

Lemma make_request_no_url (self : Request) (sigma : machine) :
  url self = None ->
  Request._make_request (self, sigma) =
    (Raise (AttributeError "url"), (self, sigma)).
Proof.
  intros Hu. unfold Request._make_request. unfold_monad. simpl.
  by rewrite Hu.
Qed.

(** What a base send leaves behind: the dictionaries and the session as
    they were, the same request up to its [response], and at most one
    new event, the transport call of the request. *)
Lemma make_request_effect (s : Request * machine) :
  let s' := (Request._make_request s).2 in
  m_dicts s'.2 = m_dicts s.2 /\
  m_session s'.2 = m_session s.2 /\
  same_request s.1 s'.1 /\
  exists new, m_log s'.2 = m_log s.2 ++ new /\
    (new = [] \/
     exists u, url s.1 = Some u /\
       new = [EvHttp (cls s.1) (Request.request_call s.2 s.1 u)]).
Proof.
  destruct s as [self sigma]. simpl.
  destruct (url self) as [u|] eqn:Hu.
  - rewrite (make_request_eq _ _ _ Hu). simpl.
    destruct (transport _ _) as [resp|msg]; simpl.
    + destruct (r_json resp) as [v|]; simpl;
        (split_and!; [done | done | try apply same_request_set_response;
                                    try apply same_request_refl |]);
        eexists; split; [done | right; eauto | done | right; eauto].
    + split_and!; [done | done | apply same_request_refl |].
      eexists; split; [done | right; eauto].
  - rewrite (make_request_no_url _ _ Hu). simpl.
    split_and!; [done | done | apply same_request_refl |].
    exists []. split; [by rewrite app_nil_r | by left].
Qed.

(** A base send that returns, or that raises one of the errors of the
    response check, has made exactly one transport call. *)
Lemma make_request_checked (s s' : Request * machine) (out : result value) :
  Request._make_request s = (out, s') ->
  match out with
  | Ok _ | Raise (InvalidSessionError _) | Raise (NoSessionError _)
  | Raise (InvalidRequest _) => True
  | _ => False
  end ->
  exists u, url s.1 = Some u /\
    m_log s'.2 = m_log s.2 ++ [EvHttp (cls s.1) (Request.request_call s.2 s.1 u)].
Proof.
  destruct s as [self sigma]. simpl.
  destruct (url self) as [u|] eqn:Hu.
  - rewrite (make_request_eq _ _ _ Hu). simpl.
    destruct (transport _ _) as [resp|msg]; simpl.
    + destruct (r_json resp) as [v|]; simpl; intros [= <- <-]; simpl;
        [eauto | done].
    + by intros [= <- <-].
  - rewrite (make_request_no_url _ _ Hu). by intros [= <- <-].
Qed.
End Running.

(** ** The base request *)

Lemma value_is_str_true (v : value) (s : string) :
  value_is_str v s = true <-> v = VStr s.
Proof.
  destruct v; simpl; try (split; [done | congruence]).
  rewrite String.eqb_eq. split; congruence.
Qed.

Section BaseRequest.
Context `{Collaborators}.

(** [InvalidSessionError] comes from one kind of response only. *)
Lemma invalid_session_inv (self : Request) (sigma : machine)
    (msg : string) (s' : Request * machine) :
  Request._make_request (self, sigma) = (Raise (InvalidSessionError msg), s') ->
  exists u resp R,
    url self = Some u /\
    transport (calls_of (m_log sigma)) (Request.request_call sigma self u)
      = HResp resp /\
    r_json resp = Some (VDict R) /\
    dict_get "status" R = Some (VStr "error") /\
    dict_get "errormessage" R = Some (VStr msg) /\
    String.prefix "no session with key" msg = true.
Proof.
  destruct (url self) as [u|] eqn:Hu.
  2:{ by rewrite (make_request_no_url _ _ Hu). }
  rewrite (make_request_eq _ _ _ Hu). simpl.
  destruct (transport _ _) as [resp|?] eqn:Hresp; simpl; [|done].
  destruct (r_json resp) as [v|] eqn:Hjson; simpl; [|done].
  destruct (Request.check_response v) as [|e] eqn:Hchk; [done|].
  intros [= -> _]. exists u, resp.
  destruct v as [| | | | |R]; simpl in Hchk; try done.
  exists R. destruct (value_is_str _ _) eqn:Hs; [|done].
  apply value_is_str_true in Hs.
  destruct (dict_get "status" R) as [st|]; simpl in Hs; [subst st|done].
  destruct (dict_get "errormessage" R) as [[| | |m| |]|]; try done.
  destruct (String.eqb m no_session_in_json); [done|].
  destruct (String.prefix "no session with key" m) eqn:Hp; [|done].
  injection Hchk as ->. by split_and!.
Qed.

(** C4.  A response that decodes to the mapping [R]: when its status is
    [error], the exact text [no "session" in JSON.] raises
    [NoSessionError], a text that starts with [no session with key]
    raises [InvalidSessionError], any other text raises [InvalidRequest]
    with that text; when its status is not [error], [R] is returned as
    it is. *)
Theorem response_classification (self : Request) (sigma : machine)
    (u : string) (resp : http_response) (R : dict) :
  url self = Some u ->
  transport (calls_of (m_log sigma)) (Request.request_call sigma self u)
    = HResp resp ->
  r_json resp = Some (VDict R) ->
  let out := (Request._make_request (self, sigma)).1 in
  (forall msg,
     dict_get "status" R = Some (VStr "error") ->
     dict_get "errormessage" R = Some (VStr msg) ->
     (msg = no_session_in_json -> out = Raise (NoSessionError msg)) /\
     (String.prefix "no session with key" msg = true ->
      out = Raise (InvalidSessionError msg)) /\
     (msg ≠ no_session_in_json ->
      String.prefix "no session with key" msg = false ->
      out = Raise (InvalidRequest msg))) /\
  (dict_get "status" R ≠ Some (VStr "error") -> out = Ok (VDict R)).
Proof.
  intros Hu Hresp Hjson. simpl.
  rewrite (make_request_eq _ _ _ Hu). simpl. rewrite Hresp. simpl.
  rewrite Hjson. simpl. split.
  - intros msg -> ->. simpl.
    destruct (String.eqb msg no_session_in_json) eqn:Heq.
    + apply String.eqb_eq in Heq as ->. split_and!; done.
    + apply String.eqb_neq in Heq. split_and!; [done | by intros -> | ].
      by intros _ ->.
  - intros Hstatus.
    destruct (value_is_str _ _) eqn:Hs; [|done].
    apply value_is_str_true in Hs.
    destruct (dict_get "status" R) as [v|]; simpl in Hs; [|done].
    by subst v.
Qed.

(** C5.  A key held by both [data] and [settings] appears once in the
    mapping that is serialized into [request-json], with the value that
    [settings] gives it. *)
Theorem settings_win_collision (self : Request) (sigma : machine)
    (u k : string) (d s : dict) (vd vs : value) :
  url self = Some u ->
  m_dicts sigma !! data self = Some d ->
  m_dicts sigma !! settings self = Some s ->
  dict_wf d -> dict_wf s ->
  dict_get k d = Some vd ->
  dict_get k s = Some vs ->
  exists merged,
    m_log (Request._make_request (self, sigma)).2.2 =
      m_log sigma ++
      [EvHttp (cls self)
         {| c_method := method self; c_url := u;
            c_data := [("request-json", VStr (json_dumps (VDict merged)))];
            c_kwargs := arguments self |}] /\
    merged = dict_merge d s /\
    dict_wf merged /\
    forall v, (k, v) ∈ merged <-> v = vs.
Proof.
  intros Hu Hd Hs Hwd Hws Hkd Hks. exists (dict_merge d s).
  assert (dict_wf (dict_merge d s)) as Hwf by by apply dict_merge_wf.
  assert (dict_get k (dict_merge d s) = Some vs) as Hget.
  { rewrite dict_get_merge by done. by rewrite Hks. }
  split_and!; [|done|done|].
  - rewrite (make_request_eq _ _ _ Hu). simpl.
    unfold Request.request_call, Request.payload, deref. rewrite Hd, Hs. simpl.
    destruct (transport _ _) as [resp|msg]; simpl; [|done].
    by destruct (r_json resp).
  - intros v. split.
    + intros Hin. apply (dict_wf_elem_get _ _ _ Hwf) in Hin. congruence.
    + intros ->. by apply dict_get_Some_elem.
Qed.

(** C8.  Construction completes exactly when the method name, lowered, is
    [get] or [post], with the transport function of that name; any other
    name makes the construction itself raise [KeyError]. *)
Theorem method_selector (c : pyclass) (u : option string) (name : string)
    (d s : option loc) (kwargs : dict) (sigma : machine) :
  let run := Request.__init__ c u name d s kwargs sigma in
  (lower name = "get" -> exists r, run.1 = Ok r /\ method r = GET) /\
  (lower name = "post" -> exists r, run.1 = Ok r /\ method r = POST) /\
  (lower name ≠ "get" -> lower name ≠ "post" ->
   exists key, run.1 = Raise (KeyError key)).
Proof.
  unfold Request.__init__, Request._method_dict. unfold_monad. simpl.
  destruct (match d with Some l => copy l | None => alloc [] end sigma)
    as [[ld|e] sigma1] eqn:Hd.
  2:{ destruct d; unfold copy, alloc in Hd; done. }
  destruct (match s with Some l => copy l | None => alloc [] end sigma1)
    as [[ls|e] sigma2] eqn:Hs.
  2:{ destruct s; unfold copy, alloc in Hs; done. }
  split_and!.
  - intros ->. simpl. eauto.
  - intros ->. simpl. eauto.
  - intros Hget Hpost. rewrite decide_False by done.
    rewrite decide_False by done. simpl. eauto.
Qed.
End BaseRequest.

Lemma response_classification_witness :
  (@Request._make_request (answers (api_error "no session with key abc"))
     (plain_request, booted "K" [] [])).1
  = Raise (InvalidSessionError "no session with key abc").
Proof.
  refine (proj1 (proj2 (proj1
    (@response_classification (answers (api_error "no session with key abc"))
       plain_request (booted "K" [] []) _ _ _ eq_refl eq_refl eq_refl)
    "no session with key abc" eq_refl eq_refl)) eq_refl).
Defined.

Lemma settings_win_collision_witness :
  exists merged,
    m_log (@Request._make_request (answers api_success)
             (plain_request,
              booted "K" [("a", VInt 1)] [("a", VInt 2)])).2.2 =
      [EvHttp CRequest
         {| c_method := GET; c_url := "http://nova.astrometry.net/api/jobs";
            c_data := [("request-json", VStr (render (VDict merged)))];
            c_kwargs := [] |}] /\
    merged = [("a", VInt 2)] /\
    dict_wf merged /\
    forall v, ("a", v) ∈ merged <-> v = VInt 2.
Proof.
  apply (@settings_win_collision (answers api_success) plain_request
           (booted "K" [("a", VInt 1)] [("a", VInt 2)])
           "http://nova.astrometry.net/api/jobs" "a"
           [("a", VInt 1)] [("a", VInt 2)] (VInt 1) (VInt 2)).
  - reflexivity.
  - vm_compute. reflexivity.
  - vm_compute. reflexivity.
  - apply dict_wf_singleton.
  - apply dict_wf_singleton.
  - reflexivity.
  - reflexivity.
Defined.

Lemma method_selector_witness :
  lower "PoSt" = "post" /\
  exists r,
    (Request.__init__ CRequest None "PoSt" None None [] (boot "K")).1 = Ok r /\
    method r = POST.
Proof.
  split; [reflexivity|].
  apply (proj1 (proj2 (method_selector CRequest None "PoSt" None None []
                         (boot "K")))).
  reflexivity.
Defined.

(** ** Logging in *)

Section Login.
Context `{Collaborators}.

(** A login that goes to the network: it builds a [PostRequest] for the
    login call, only adding dictionaries, and the outcome is read off
    the base send of that request. *)
Lemma login_run (force : bool) (sigma : machine) :
  negb force && logged_in (m_session sigma) = false ->
  exists (r : Request) (sigma3 : machine),
    m_dicts sigma ⊆ m_dicts sigma3 /\
    m_session sigma3 = m_session sigma /\
    m_log sigma3 = m_log sigma ++ [EvLogin force] /\
    m_stdout sigma3 = m_stdout sigma /\
    cls r = CPostRequest /\ url r = Some login_url /\
    Request.request_call sigma3 r login_url =
      login_call (api_key (m_session sigma)) /\
    Session.login force sigma =
      match Request._make_request (r, sigma3) with
      | (Ok (VDict d), s) =>
          if value_is_str (default VNone (dict_get "status" d)) "success"
          then
            match dict_get "session" d with
            | Some k =>
                (Ok tt, set_session (set_logged_in true)
                          (set_session (set_key k) s.2))
            | None => (Raise (KeyError "session"), s.2)
            end
          else (Raise (LoginFailedException (py_str (VDict d))), s.2)
      | (Ok _, s) => (Raise (AttributeError "get"), s.2)
      | (Raise e, s) => (Raise e, s.2)
      end.
Proof.
  intros Hskip. unfold Session.login, PostRequest.__init__, Request.__init__.
  unfold_monad. simpl. rewrite Hskip. unfold copy, alloc. simpl.
  set (D0 := m_dicts sigma).
  set (lit := [("apikey", api_key (m_session sigma))]).
  set (l1 := fresh (dom D0)).
  set (D1 := <[l1 := lit]> D0).
  assert (deref (set_dicts (insert l1 lit) (add_event (EvLogin force) sigma))
            l1 = lit) as ->.
  { unfold deref. simpl. by rewrite lookup_insert_eq. }
  set (l2 := fresh (dom D1)).
  set (D2 := <[l2 := lit]> D1).
  set (l3 := fresh (dom D2)).
  match goal with |- context [Request.make (?a, ?b)] => exists a, b end.
  split_and!; try done.
  - simpl. fold D0 D1 D2 l3.
    etrans; [apply (insert_fresh_subseteq D0 lit)|].
    etrans; [apply (insert_fresh_subseteq D1 lit)|].
    apply (insert_fresh_subseteq D2 []).
  - unfold Request.request_call, Request.payload, login_call, deref. simpl.
    fold D0 D1 D2 l3. rewrite lookup_insert_eq.
    rewrite lookup_insert_ne.
    2:{ intros Heq. pose proof (lookup_fresh D2) as Hf. fold l3 in Hf.
        rewrite Heq in Hf. unfold D2 in Hf. by rewrite lookup_insert_eq in Hf. }
    unfold D2. by rewrite lookup_insert_eq.
  - unfold Request.make.
    destruct (Request._make_request _) as [[v|e] s]; simpl; [|done].
    destruct v; try done.
    destruct (value_is_str _ _); [|done]. by destruct (dict_get "session" d).
Qed.

(** A login that finds the session logged in and is not forced. *)
Lemma login_skip (force : bool) (sigma : machine) :
  negb force && logged_in (m_session sigma) = true ->
  Session.login force sigma = (Ok tt, add_event (EvLogin force) sigma).
Proof.
  intros Hskip. unfold Session.login. unfold_monad. simpl. by rewrite Hskip.
Qed.
(** What a login leaves behind: every dictionary that existed, the
    API key, its own mark in the log followed by the login call if it
    went to the network, and a session that is logged in with a key when
    it returns and untouched when it raises. *)
Lemma login_effect (force : bool) (sigma : machine) :
  let out := (Session.login force sigma).1 in
  let sigma' := (Session.login force sigma).2 in
  m_dicts sigma ⊆ m_dicts sigma' /\
  api_key (m_session sigma') = api_key (m_session sigma) /\
  m_log sigma' = m_log sigma ++ EvLogin force ::
     (if negb force && logged_in (m_session sigma) then []
      else [EvHttp CPostRequest (login_call (api_key (m_session sigma)))]) /\
  match out with
  | Ok _ => logged_in (m_session sigma') = true /\
            (negb force && logged_in (m_session sigma) = false ->
             is_Some (key (m_session sigma')))
  | Raise _ => m_session sigma' = m_session sigma
  end.
Proof.
  destruct (negb force && logged_in (m_session sigma)) eqn:Hskip.
  - rewrite (login_skip _ _ Hskip). simpl.
    apply andb_prop in Hskip as [_ ?]. by split_and!.
  - destruct (login_run _ _ Hskip)
      as (r & sigma3 & Hsub & Hsess & Hlog & _ & Hcls & Hurl & Hcall & ->).
    rewrite (make_request_eq _ _ _ Hurl), Hcall, Hcls. simpl.
    assert (forall new, (m_log sigma ++ [EvLogin force]) ++ new
                        = m_log sigma ++ EvLogin force :: new) as Hassoc.
    { intros new. by rewrite <- app_assoc. }
    destruct (transport _ _) as [resp|msg]; simpl.
    + destruct (r_json resp) as [v|]; simpl.
      * destruct (Request.check_response v) eqn:Hchk; simpl.
        -- destruct v; simpl; try (rewrite Hlog, Hassoc, Hsess; by split_and!).
           destruct (value_is_str _ _); simpl;
             [|rewrite Hlog, Hassoc, Hsess; by split_and!].
           destruct (dict_get "session" d); simpl;
             rewrite Hlog, Hassoc, ?Hsess; split_and!; eauto.
        -- rewrite Hlog, Hassoc, Hsess; by split_and!.
      * rewrite Hlog, Hassoc, Hsess; by split_and!.
    + rewrite Hlog, Hassoc, Hsess; by split_and!.
Qed.

(** What [login]'s own check turns down: a response mapping whose status
    is neither [success] nor [error] raises [LoginFailedException], and
    the Session stays as it was. *)
Lemma login_refused_status (force : bool) (sigma : machine)
    (resp : http_response) (R : dict) :
  negb force && logged_in (m_session sigma) = false ->
  transport (calls_of (m_log sigma)) (login_call (api_key (m_session sigma)))
    = HResp resp ->
  r_json resp = Some (VDict R) ->
  dict_get "status" R ≠ Some (VStr "error") ->
  dict_get "status" R ≠ Some (VStr "success") ->
  (Session.login force sigma).1
    = Raise (LoginFailedException (py_str (VDict R))) /\
  m_session (Session.login force sigma).2 = m_session sigma.
Proof.
  intros Hskip Hresp Hjson Herr Hsucc.
  destruct (login_run _ _ Hskip)
    as (r & sigma3 & _ & Hsess & Hlog & _ & _ & Hurl & Hcall & ->).
  rewrite (make_request_eq _ _ _ Hurl), Hcall, Hlog. simpl.
  rewrite calls_of_app. simpl. rewrite app_nil_r, Hresp. simpl.
  rewrite Hjson. simpl.
  destruct (value_is_str (default (VStr "") (dict_get "status" R)) "error")
    eqn:Hs.
  { apply value_is_str_true in Hs.
    destruct (dict_get "status" R); simpl in Hs; [by subst|done]. }
  simpl.
  destruct (value_is_str (default VNone (dict_get "status" R)) "success")
    eqn:Hs'.
  { apply value_is_str_true in Hs'.
    destruct (dict_get "status" R); simpl in Hs'; [by subst|done]. }
  simpl. by rewrite Hsess.
Qed.

(** A login answered with status [error] never gets to [login]'s own
    check: the base request raises first, and the Session stays as it
    was. *)
Lemma login_error_raised_below (force : bool) (sigma : machine)
    (resp : http_response) (R : dict) :
  negb force && logged_in (m_session sigma) = false ->
  transport (calls_of (m_log sigma)) (login_call (api_key (m_session sigma)))
    = HResp resp ->
  r_json resp = Some (VDict R) ->
  dict_get "status" R = Some (VStr "error") ->
  exists e,
    (Session.login force sigma).1 = Raise e /\
    Request.check_response (VDict R) = Raise e /\
    (forall m, e ≠ LoginFailedException m) /\
    m_session (Session.login force sigma).2 = m_session sigma.
Proof.
  intros Hskip Hresp Hjson Herr.
  destruct (login_run _ _ Hskip)
    as (r & sigma3 & _ & Hsess & Hlog & _ & _ & Hurl & Hcall & ->).
  rewrite (make_request_eq _ _ _ Hurl), Hcall, Hlog. simpl.
  rewrite calls_of_app. simpl. rewrite app_nil_r, Hresp. simpl.
  rewrite Hjson. simpl. rewrite Herr. simpl.
  destruct (dict_get "errormessage" R) as [[| | |m| |]|]; simpl;
    try (eexists; split_and!; [done | done | done | done]).
  destruct (String.eqb m no_session_in_json); simpl;
    [eexists; split_and!; done|].
  destruct (String.prefix "no session with key" m); simpl;
    eexists; split_and!; done.
Qed.

(** C6, as the code has it.  On a Session that is not logged in and whose
    first [login()] succeeds, two calls of [login()] make exactly one
    transport call; two calls of [login(force=True)] make exactly two,
    whatever the Session and the answers; and on a Session that is logged
    in, [login()] returns at once: no transport call, no change to the
    Session, the dictionaries or the output. *)
Theorem login_twice (sigma sigma1 : machine) :
  (logged_in (m_session sigma) = false ->
   Session.login false sigma = (Ok tt, sigma1) ->
   exists new,
     m_log (twice (Session.login false) sigma) = m_log sigma ++ new /\
     http_calls new = 1) /\
  (exists new,
     m_log (twice (Session.login true) sigma) = m_log sigma ++ new /\
     http_calls new = 2) /\
  (logged_in (m_session sigma) = true ->
   Session.login false sigma = (Ok tt, add_event (EvLogin false) sigma)).
Proof.
  split_and!.
  - intros Hout Hrun. unfold twice.
    destruct (login_effect false sigma) as (_ & _ & Hlog & Hok).
    rewrite Hrun in *. simpl in *. rewrite Hout in Hlog. simpl in Hlog.
    destruct Hok as [Hin _].
    rewrite (login_skip false sigma1) by by rewrite Hin.
    simpl. rewrite Hlog. eexists. rewrite <- app_assoc. split; [done|].
    done.
  - unfold twice.
    destruct (login_effect true sigma) as (_ & _ & Hlog & _).
    destruct (login_effect true (Session.login true sigma).2)
      as (_ & _ & Hlog' & _).
    simpl in *. rewrite Hlog', Hlog. eexists. rewrite <- app_assoc.
    split; [done|]. done.
  - intros Hin. apply login_skip. by rewrite Hin.
Qed.
End Login.

Lemma login_twice_witness :
  exists new,
    m_log (twice (@Session.login expired_once false) (boot "K")) =
      m_log (boot "K") ++ new /\
    http_calls new = 1.
Proof.
  eapply (proj1 (@login_twice expired_once (boot "K") _)).
  - reflexivity.
  - vm_compute. reflexivity.
Defined.

(** C6 as the specification words it fails where the first login is turned
    down: the second call goes to the network again. *)
Lemma login_twice_refused :
  logged_in (m_session (boot "K")) = false /\
  http_calls (m_log (twice (@Session.login login_refused false) (boot "K"))) = 2 /\
  ~ http_calls (m_log (twice (@Session.login login_refused false) (boot "K"))) = 1.
Proof. vm_compute. split_and!; [done | done | discriminate]. Qed.

(** C7: a login answered with status [error] ends in the error of the base
    request, not in [LoginFailedException]; the Session is left as it
    was. *)
Theorem login_error_status :
  let run := @Session.login bad_apikey false (boot "K") in
  run.1 = Raise (InvalidRequest "bad apikey") /\
  run.1 ≠ Raise (LoginFailedException
                   (@py_str bad_apikey
                      (VDict [("status", VStr "error");
                              ("errormessage", VStr "bad apikey")]))) /\
  m_session run.2 = m_session (boot "K") /\
  http_calls (m_log run.2) = 1.
Proof. vm_compute. split_and!; done. Qed.

(** C1: with no key argument, no key file and an environment that does
    not hold ASTROMETRY_API_KEY (any environment, the variable removed),
    construction completes, with [None] for API key: [os.environ.get]
    raises no [KeyError] for the handler to turn into [APIKeyError]. *)
Theorem init_without_key `{Collaborators} (environ : gmap string string) :
  Session.__init__ (delete "ASTROMETRY_API_KEY" environ) VNone None
  = Ok {| api_key := VNone; key := None; logged_in := false |}.
Proof.
  unfold Session.__init__, Session.os_environ_get.
  by rewrite lookup_delete_eq.
Qed.

(** ** The authorized request *)

Section Authorized.
Context `{Collaborators}.

(** Writing the session key into the request's own [data]. *)
Lemma set_session_field_eq (s : Request * machine) :
  AuthorizedRequest.set_session_field s =
    match key (m_session s.2) with
    | Some k =>
        (Ok tt, (s.1, set_dicts (insert (data s.1)
                        (dict_set "session" k (deref s.2 (data s.1)))) s.2))
    | None => (Raise (AttributeError "key"), s)
    end.
Proof.
  unfold AuthorizedRequest.set_session_field. unfold_monad. simpl.
  by destruct (key (m_session s.2)).
Qed.

(** The authorized send, path by path. *)
Lemma authorized_eq (r : Request) (sigma : machine) :
  AuthorizedRequest._make_request (r, sigma) =
    match Session.login false sigma with
    | (Raise e, sigma1) => (Raise e, (r, sigma1))
    | (Ok _, sigma1) =>
        match AuthorizedRequest.set_session_field (r, sigma1) with
        | (Raise e, s2) => (Raise e, s2)
        | (Ok _, s2) =>
            match Request._make_request s2 with
            | (Ok v, s3) => (Ok v, s3)
            | (Raise (InvalidSessionError msg), s3) =>
                match Session.login true
                        (add_stdout "Session expired, loggin in again" s3.2)
                with
                | (Raise e, sigma4) => (Raise e, (s3.1, sigma4))
                | (Ok _, sigma4) =>
                    match AuthorizedRequest.set_session_field (s3.1, sigma4) with
                    | (Raise e, s5) => (Raise e, s5)
                    | (Ok _, s5) => Request._make_request s5
                    end
                end
            | (Raise e, s3) => (Raise e, s3)
            end
        end
    end.
Proof.
  unfold AuthorizedRequest._make_request.
  unfold mbind at 1 2 3. unfold M_bind. unfold on_machine at 1. simpl.
  destruct (Session.login false sigma) as [[[]|e] sigma1]; simpl; [|done].
  destruct (AuthorizedRequest.set_session_field (r, sigma1)) as [[[]|e] s2];
    simpl; [|done].
  unfold try_except. unfold mbind at 1. unfold M_bind.
  destruct (Request._make_request s2) as [[v|e] s3]; simpl; [done|].
  destruct e; try done.
  unfold mbind, M_bind, on_machine, print, modify, mret, M_ret. simpl.
  destruct (Session.login true _) as [[[]|e] sigma4]; simpl; [|done].
  destruct (AuthorizedRequest.set_session_field (s3.1, sigma4)) as [[[]|e] s5];
    simpl; done.
Qed.

(** It touches the dictionary at [data] and nothing else. *)
Lemma set_session_field_effect (s : Request * machine) :
  let s' := (AuthorizedRequest.set_session_field s).2 in
  s'.1 = s.1 /\ m_log s'.2 = m_log s.2 /\ m_session s'.2 = m_session s.2 /\
  forall l, l ≠ data s.1 -> m_dicts s'.2 !! l = m_dicts s.2 !! l.
Proof.
  rewrite set_session_field_eq.
  destruct (key (m_session s.2)); simpl; split_and!; try done.
  intros l Hl. by rewrite lookup_insert_ne.
Qed.
Lemma frame_refl (x : loc) (sigma : machine) : frame x sigma sigma.
Proof. by intros l d _ Hl. Qed.

Lemma frame_trans (x : loc) (sigma1 sigma2 sigma3 : machine) :
  frame x sigma1 sigma2 -> frame x sigma2 sigma3 -> frame x sigma1 sigma3.
Proof. intros H12 H23 l d Hx Hl. apply H23, H12; done. Qed.

Lemma frame_subseteq (x : loc) (sigma sigma' : machine) :
  m_dicts sigma ⊆ m_dicts sigma' -> frame x sigma sigma'.
Proof. intros Hsub l d _ Hl. by eapply lookup_weaken. Qed.

Lemma frame_same_dicts (x : loc) (sigma sigma' : machine) :
  m_dicts sigma' = m_dicts sigma -> frame x sigma sigma'.
Proof. intros Heq l d _ Hl. by rewrite Heq. Qed.

Lemma request_call_same (sigma : machine) (r r' : Request) (u : string) :
  same_request r r' ->
  Request.request_call sigma r' u = Request.request_call sigma r u.
Proof.
  intros (_ & _ & Hm & Hd & Hs & Ha).
  unfold Request.request_call, Request.payload. by rewrite Hm, Hd, Hs, Ha.
Qed.

Lemma progress_intro (sigma0 : machine) (r : Request)
    (s : Request * machine) (new : list event) (n f : nat) :
  same_request r s.1 -> frame (data r) sigma0 s.2 ->
  m_log s.2 = m_log sigma0 ++ new ->
  http_calls_by CAuthorizedRequest new = n ->
  logins true new = f ->
  (forall c, EvHttp CAuthorizedRequest c ∈ new -> sent_from sigma0 r c) ->
  progress sigma0 r s new n f.
Proof. by unfold progress. Qed.

Lemma progress_start (sigma0 : machine) (r : Request) :
  progress sigma0 r (r, sigma0) [] 0 0.
Proof.
  apply progress_intro; simpl.
  - apply same_request_refl.
  - apply frame_refl.
  - by rewrite app_nil_r.
  - done.
  - done.
  - intros c Hc. by apply elem_of_nil in Hc.
Qed.

Lemma progress_login (sigma0 : machine) (r : Request)
    (s : Request * machine) (new : list event) (n f : nat) (force : bool) :
  progress sigma0 r s new n f ->
  exists new',
    progress sigma0 r (s.1, (Session.login force s.2).2) new' n
      (f + if force then 1 else 0).
Proof.
  intros (Hsame & Hframe & Hlog & Hn & Hf & Hsent).
  destruct (login_effect force s.2) as (Hsub & _ & Hlog' & _).
  eexists (new ++ EvLogin force :: _). apply progress_intro; simpl.
  - done.
  - eapply frame_trans; [done|]. by apply frame_subseteq.
  - by rewrite Hlog', Hlog, <- app_assoc.
  - unfold http_calls_by in *. rewrite count_events_app, Hn.
    destruct (negb force && _); unfold count_events; simpl; lia.
  - unfold logins in *. rewrite count_events_app, Hf.
    destruct (negb force && _), force; unfold count_events; simpl; lia.
  - intros c Hc. apply Hsent.
    apply elem_of_app in Hc as [Hc|Hc]; [done|].
    apply elem_of_cons in Hc as [Hc|Hc]; [done|].
    destruct (negb force && _).
    + by apply elem_of_nil in Hc.
    + apply list_elem_of_singleton in Hc. done.
Qed.

Lemma progress_stdout (sigma0 : machine) (r : Request)
    (s : Request * machine) (new : list event) (n f : nat) (line : string) :
  progress sigma0 r s new n f ->
  progress sigma0 r (s.1, add_stdout line s.2) new n f.
Proof. intros (?&?&?&?&?&?). by apply progress_intro. Qed.

Lemma progress_set_session_field (sigma0 : machine) (r : Request)
    (s : Request * machine) (new : list event) (n f : nat) :
  progress sigma0 r s new n f ->
  progress sigma0 r (AuthorizedRequest.set_session_field s).2 new n f.
Proof.
  intros (Hsame & Hframe & Hlog & Hn & Hf & Hsent).
  destruct (set_session_field_effect s) as (H1 & Hlog' & _ & Hd).
  apply progress_intro; try done.
  - by rewrite H1.
  - intros l d Hl Hld. rewrite Hd; [by apply Hframe|].
    destruct Hsame as (_&_&_&Hdata&_). by rewrite Hdata.
  - by rewrite Hlog'.
Qed.

Lemma progress_send (sigma0 : machine) (r : Request)
    (s : Request * machine) (new : list event) (n f : nat) :
  cls r = CAuthorizedRequest ->
  progress sigma0 r s new n f ->
  exists new' k, k <= 1 /\
    progress sigma0 r (Request._make_request s).2 new' (n + k) f /\
    match (Request._make_request s).1 with
    | Ok _ | Raise (InvalidSessionError _) => k = 1
    | _ => True
    end.
Proof.
  intros Hcls (Hsame & Hframe & Hlog & Hn & Hf & Hsent).
  destruct (make_request_effect s) as (Hd & _ & Hsame' & delta & Hlog' & Hdelta).
  assert (cls s.1 = CAuthorizedRequest) as Hcls'.
  { destruct Hsame as (Hc & _). by rewrite Hc. }
  assert (forall c, EvHttp CAuthorizedRequest c ∈ delta -> sent_from sigma0 r c)
    as Hsent'.
  { intros c Hc. destruct Hdelta as [->|(u & Hu & ->)].
    - by apply elem_of_nil in Hc.
    - apply list_elem_of_singleton in Hc. injection Hc as _ ->.
      exists s.2, u. split_and!; [done | |by apply request_call_same].
      destruct Hsame as (_ & Hurl & _). by rewrite <- Hurl. }
  exists (new ++ delta), (http_calls_by CAuthorizedRequest delta).
  split; [|split; [apply progress_intro|]].
  - destruct Hdelta as [->|(u & Hu & ->)];
      unfold http_calls_by, count_events; simpl; [lia|].
    rewrite Hcls'. simpl. lia.
  - eapply same_request_trans; done.
  - eapply frame_trans; [done|]. by apply frame_same_dicts.
  - by rewrite Hlog', Hlog, <- app_assoc.
  - unfold http_calls_by in *. by rewrite count_events_app, Hn.
  - unfold logins in *. rewrite count_events_app, Hf.
    destruct Hdelta as [->|(u & Hu & ->)]; unfold count_events; simpl; lia.
  - intros c Hc. apply elem_of_app in Hc as [Hc|Hc]; auto.
  - destruct (Request._make_request s) as [out s'] eqn:Hrun. simpl in *.
    assert (match out with
            | Ok _ | Raise (InvalidSessionError _) => True
            | _ => False
            end ->
            http_calls_by CAuthorizedRequest delta = 1) as Hone.
    { intros Hout.
      destruct (make_request_checked _ _ _ Hrun) as (u & Hu & Hlog'').
      { by destruct out as [|[]]. }
      rewrite Hlog' in Hlog''. apply app_inv_head in Hlog'' as ->.
      unfold http_calls_by, count_events. simpl. by rewrite Hcls'. }
    destruct out as [|[]]; auto.
Qed.
(** Every authorized send, however it ends: at most two transport calls
    of the request and at most one forced login; a send that returns has
    made at least one call. *)
Lemma authorized_progress (r : Request) (sigma : machine) :
  cls r = CAuthorizedRequest ->
  exists new n f,
    progress sigma r (AuthorizedRequest._make_request (r, sigma)).2 new n f /\
    n <= 2 /\ f <= 1 /\
    match (AuthorizedRequest._make_request (r, sigma)).1 with
    | Ok _ => 1 <= n
    | Raise _ => True
    end.
Proof.
  intros Hcls. rewrite authorized_eq.
  pose proof (progress_start sigma r) as P0.
  destruct (progress_login _ _ _ _ _ _ false P0) as (new1 & P1).
  simpl in P1.
  destruct (Session.login false sigma) as [[[]|e] sigma1]; simpl in *;
    [|exists new1, 0, 0; split_and!; [done|lia..|done]].
  pose proof (progress_set_session_field _ _ _ _ _ _ P1) as P2.
  destruct (AuthorizedRequest.set_session_field (r, sigma1)) as [[[]|e] s2];
    simpl in *; [|exists new1, 0, 0; split_and!; [done|lia..|done]].
  destruct (progress_send _ _ _ _ _ _ Hcls P2) as (new3 & k & Hk & P3 & Hk1).
  destruct (Request._make_request s2) as [[v|e] s3]; simpl in *.
  { exists new3, k. eexists. split_and!; [done|lia..]. }
  destruct e; simpl;
    try (exists new3, k; eexists; split_and!; [done|lia..|done]).
  pose proof (progress_stdout _ _ _ _ _ _ "Session expired, loggin in again" P3)
    as P3'.
  destruct (progress_login _ _ _ _ _ _ true P3') as (new4 & P4).
  simpl in P4.
  destruct (Session.login true _) as [[[]|e] sigma4]; simpl in *;
    [|exists new4, k; eexists; split_and!; [done|lia..|done]].
  pose proof (progress_set_session_field _ _ _ _ _ _ P4) as P5.
  destruct (AuthorizedRequest.set_session_field (s3.1, sigma4))
    as [[[]|e] s5]; simpl in *;
    [|exists new4, k; eexists; split_and!; [done|lia..|done]].
  destruct (progress_send _ _ _ _ _ _ Hcls P5) as (new6 & k' & Hk' & P6 & Hk1').
  exists new6, (k + k'). eexists. split_and!; [done|lia..|].
  destruct (Request._make_request s5) as [[v|e] s6]; simpl in *; [lia|done].
Qed.

(** An authorized send whose first attempt is answered with an expired
    session and whose forced login succeeds makes the second attempt and
    ends as it ends; when that attempt returns or finds the session
    expired again, the log has grown by exactly the retry trace. *)
Lemma retry_log (r : Request) (sigma sigma1 sigma4 : machine)
    (s2 s3 s5 s6 : Request * machine) (msg : string) (out : result value) :
  cls r = CAuthorizedRequest ->
  Session.login false sigma = (Ok tt, sigma1) ->
  AuthorizedRequest.set_session_field (r, sigma1) = (Ok tt, s2) ->
  Request._make_request s2 = (Raise (InvalidSessionError msg), s3) ->
  Session.login true (add_stdout "Session expired, loggin in again" s3.2)
    = (Ok tt, sigma4) ->
  AuthorizedRequest.set_session_field (s3.1, sigma4) = (Ok tt, s5) ->
  Request._make_request s5 = (out, s6) ->
  match out with
  | Ok _ | Raise (InvalidSessionError _) => True
  | _ => False
  end ->
  AuthorizedRequest._make_request (r, sigma) = (out, s6) /\
  exists u, url r = Some u /\
    m_log s6.2 = m_log sigma ++
      retry_trace sigma (Request.request_call s2.2 r u)
                        (Request.request_call s5.2 r u).
Proof.
  intros Hcls H1 H2 H3 H4 H5 H6 Hout. split.
  { rewrite authorized_eq, H1, H2, H3. simpl. by rewrite H4, H5. }
  destruct (login_effect false sigma) as (_ & Hkey1 & Hlog1 & _).
  rewrite H1 in Hkey1, Hlog1. simpl in Hkey1, Hlog1.
  destruct (set_session_field_effect (r, sigma1)) as (Hr2 & Hlog2 & Hsess2 & _).
  rewrite H2 in Hr2, Hlog2, Hsess2. simpl in Hr2, Hlog2, Hsess2.
  destruct (make_request_checked _ _ _ H3 I) as (u & Hu & Hlog3).
  destruct (make_request_effect s2) as (_ & Hsess3 & Hsame3 & _).
  rewrite H3 in Hsess3, Hsame3. simpl in Hsess3, Hsame3.
  destruct (login_effect true (add_stdout "Session expired, loggin in again" s3.2))
    as (_ & _ & Hlog4 & _).
  rewrite H4 in Hlog4. simpl in Hlog4.
  destruct (set_session_field_effect (s3.1, sigma4)) as (Hr5 & Hlog5 & _).
  rewrite H5 in Hr5, Hlog5. simpl in Hr5, Hlog5.
  destruct (make_request_checked _ _ _ H6) as (u' & Hu' & Hlog6).
  { by destruct out as [|[]]. }
  rewrite Hr2 in *.
  assert (same_request r s5.1) as Hsame5 by by rewrite Hr5.
  assert (u' = u) as ->.
  { destruct Hsame5 as (_ & Hurl & _). congruence. }
  exists u. split; [done|].
  rewrite Hlog6, Hlog5, Hlog4, Hlog3, Hlog2, Hlog1.
  rewrite (request_call_same _ _ _ _ Hsame5).
  destruct Hsame5 as (-> & _). rewrite Hcls, Hsess3, Hsess2, Hkey1.
  unfold retry_trace. rewrite <- !app_assoc. simpl.
  by destruct (logged_in (m_session sigma)).
Qed.

(** The retry trace, counted. *)
Lemma retry_trace_counts (sigma : machine) (c1 c2 : call) :
  logins true (retry_trace sigma c1 c2) = 1 /\
  http_calls_by CAuthorizedRequest (retry_trace sigma c1 c2) = 2 /\
  http_calls (retry_trace sigma c1 c2)
    = if logged_in (m_session sigma) then 3 else 4.
Proof.
  unfold retry_trace, logins, http_calls_by, http_calls, count_events.
  by destruct (logged_in (m_session sigma)).
Qed.

(** C2.  An authorized send whose first underlying attempt is answered
    with an expired session ([InvalidSessionError]) and whose second
    attempt, made after a forced login and after the session field of
    the request has been set to the new key, gets a response that passes
    the check, returns that second decoded response; exactly one forced
    login has occurred and exactly two transport calls of the request
    have been made, the only other transport calls being those of the
    logins. *)
Theorem retry_after_expired_session (r : Request)
    (sigma sigma1 sigma4 : machine) (s2 s3 s5 s6 : Request * machine)
    (msg : string) (R : value) :
  cls r = CAuthorizedRequest ->
  Session.login false sigma = (Ok tt, sigma1) ->
  AuthorizedRequest.set_session_field (r, sigma1) = (Ok tt, s2) ->
  Request._make_request s2 = (Raise (InvalidSessionError msg), s3) ->
  Session.login true (add_stdout "Session expired, loggin in again" s3.2)
    = (Ok tt, sigma4) ->
  AuthorizedRequest.set_session_field (s3.1, sigma4) = (Ok tt, s5) ->
  Request._make_request s5 = (Ok R, s6) ->
  AuthorizedRequest._make_request (r, sigma) = (Ok R, s6) /\
  exists u new,
    url r = Some u /\
    new = retry_trace sigma (Request.request_call s2.2 r u)
                            (Request.request_call s5.2 r u) /\
    m_log s6.2 = m_log sigma ++ new /\
    logins true new = 1 /\
    http_calls_by CAuthorizedRequest new = 2.
Proof.
  intros Hcls H1 H2 H3 H4 H5 H6.
  destruct (retry_log _ _ _ _ _ _ _ _ _ _ Hcls H1 H2 H3 H4 H5 H6 I)
    as (Heq & u & Hu & Hlog).
  split; [done|]. exists u. eexists. split_and!; [done | reflexivity | done |..];
    apply retry_trace_counts.
Qed.

(** C3.  No authorized send makes more than two transport calls of the
    request.  When both the first attempt and the one retry are answered
    with an expired session, the send raises [InvalidSessionError] after
    exactly two calls. *)
Theorem at_most_one_retry (r : Request)
    (sigma sigma1 sigma4 : machine) (s2 s3 s5 s6 : Request * machine)
    (msg msg' : string) :
  cls r = CAuthorizedRequest ->
  (exists new,
     m_log (AuthorizedRequest._make_request (r, sigma)).2.2
       = m_log sigma ++ new /\
     http_calls_by CAuthorizedRequest new <= 2) /\
  (Session.login false sigma = (Ok tt, sigma1) ->
   AuthorizedRequest.set_session_field (r, sigma1) = (Ok tt, s2) ->
   Request._make_request s2 = (Raise (InvalidSessionError msg), s3) ->
   Session.login true (add_stdout "Session expired, loggin in again" s3.2)
     = (Ok tt, sigma4) ->
   AuthorizedRequest.set_session_field (s3.1, sigma4) = (Ok tt, s5) ->
   Request._make_request s5 = (Raise (InvalidSessionError msg'), s6) ->
   AuthorizedRequest._make_request (r, sigma)
     = (Raise (InvalidSessionError msg'), s6) /\
   exists u new,
     url r = Some u /\
     new = retry_trace sigma (Request.request_call s2.2 r u)
                             (Request.request_call s5.2 r u) /\
     m_log s6.2 = m_log sigma ++ new /\
     http_calls_by CAuthorizedRequest new = 2).
Proof.
  intros Hcls. split.
  - destruct (authorized_progress r sigma Hcls) as (new & n & f & P & Hn & _).
    exists new. destruct P as (_ & _ & Hlog & Hcount & _).
    split; [done | lia].
  - intros H1 H2 H3 H4 H5 H6.
    destruct (retry_log _ _ _ _ _ _ _ _ _ _ Hcls H1 H2 H3 H4 H5 H6 I)
      as (Heq & u & Hu & Hlog).
    split; [done|]. exists u. eexists.
    split_and!; [done | reflexivity | done |]. apply retry_trace_counts.
Qed.
End Authorized.

Lemma retry_after_expired_session_witness :
  exists s6,
    @AuthorizedRequest._make_request expired_once
      (status_request, booted "K" [] [])
    = (Ok (VDict [("status", VStr "success"); ("jobs", VList [VInt 7])]), s6) /\
    exists new, m_log s6.2 = m_log (booted "K" [] []) ++ new /\
      logins true new = 1 /\ http_calls_by CAuthorizedRequest new = 2.
Proof.
  eexists.
  edestruct (@retry_after_expired_session expired_once status_request
               (booted "K" [] [])) as (Hrun & u & new & _ & _ & Hlog & Hcount).
  - reflexivity.
  - vm_compute. reflexivity.
  - vm_compute. reflexivity.
  - vm_compute. reflexivity.
  - vm_compute. reflexivity.
  - vm_compute. reflexivity.
  - vm_compute. reflexivity.
  - split; [exact Hrun|]. exists new. split; [exact Hlog | exact Hcount].
Defined.

Lemma at_most_one_retry_witness :
  exists s6,
    @AuthorizedRequest._make_request expired_twice
      (status_request, booted "K" [] [])
    = (Raise (InvalidSessionError "no session with key s2"), s6) /\
    exists new, m_log s6.2 = m_log (booted "K" [] []) ++ new /\
      http_calls_by CAuthorizedRequest new = 2.
Proof.
  eexists.
  epose proof (proj2 (@at_most_one_retry expired_twice status_request
                        (booted "K" [] []) _ _ _ _ _ _ _ _ eq_refl)) as Hretry.
  edestruct Hretry as (Hrun & u & new & _ & _ & Hlog & Hcount).
  - vm_compute. reflexivity.
  - vm_compute. reflexivity.
  - vm_compute. reflexivity.
  - vm_compute. reflexivity.
  - vm_compute. reflexivity.
  - vm_compute. reflexivity.
  - split; [exact Hrun|]. exists new. split; [exact Hlog | exact Hcount].
Defined.

(** ** Ownership of the mappings *)

Section Ownership.
Context `{Collaborators}.

(** What construction allocates: a copy of each mapping it is given, at
    references that did not exist before. *)
Lemma init_copies (c : pyclass) (u : option string) (name : string)
    (ld ls : loc) (kwargs : dict) (sigma sigma1 : machine) (r : Request)
    (d s : dict) :
  m_dicts sigma !! ld = Some d ->
  m_dicts sigma !! ls = Some s ->
  Request.__init__ c u name (Some ld) (Some ls) kwargs sigma = (Ok r, sigma1) ->
  cls r = c /\
  m_dicts sigma !! data r = None /\ m_dicts sigma !! settings r = None /\
  data r ≠ settings r /\
  m_dicts sigma1 !! data r = Some d /\ m_dicts sigma1 !! settings r = Some s /\
  m_dicts sigma ⊆ m_dicts sigma1.
Proof.
  intros Hd Hs. unfold Request.__init__, copy, alloc. unfold_monad. simpl.
  unfold deref. rewrite Hd. simpl.
  set (D0 := m_dicts sigma) in *. set (l1 := fresh (dom D0)).
  assert (D0 !! l1 = None) as Hl1 by apply lookup_fresh.
  assert (ls ≠ l1) as Hne by (intros ->; congruence).
  rewrite lookup_insert_ne by done. rewrite Hs. simpl.
  set (D1 := <[l1 := d]> D0). set (l2 := fresh (dom D1)).
  assert (D1 !! l2 = None) as Hl2 by apply lookup_fresh.
  assert (l1 ≠ l2) as Hne'.
  { intros Heq. rewrite <- Heq in Hl2. unfold D1 in Hl2.
    by rewrite lookup_insert_eq in Hl2. }
  destruct (Request._method_dict (lower name)) as [f|]; simpl; [|done].
  intros [= <- <-]. simpl. fold D0 D1 l2. split_and!; try done.
  - unfold D1 in Hl2. by rewrite lookup_insert_ne in Hl2.
  - rewrite lookup_insert_ne by done. unfold D1. by rewrite lookup_insert_eq.
  - by rewrite lookup_insert_eq.
  - etrans; [apply (insert_fresh_subseteq D0 d)|].
    apply (insert_fresh_subseteq D1 s).
Qed.


(** A send keeps every dictionary but the request's own [data]. *)
Lemma make_frame (s : Request * machine) :
  frame (data s.1) s.2 (make s).2.2.
Proof.
  destruct s as [r sigma]. unfold make. unfold_monad. simpl.
  destruct (cls r) eqn:Hcls.
  - apply frame_same_dicts. by destruct (make_request_effect (r, sigma)).
  - apply frame_same_dicts. by destruct (make_request_effect (r, sigma)).
  - destruct (authorized_progress r sigma Hcls) as (new & n & f & P & _).
    by destruct P as (_ & Hframe & _).
Qed.

(** C9.  A request of any class built from the caller's [data] and
    [settings] works on copies: construction leaves the caller's two
    mappings as they are, and so does every later send of the instance,
    in whatever state it is made; the session key an authorized send
    writes goes into the copy. *)
Theorem caller_mappings_untouched (c : pyclass) (u : option string)
    (name : string) (ld ls : loc) (kwargs : dict)
    (sigma sigma1 : machine) (r : Request) (d s : dict) :
  m_dicts sigma !! ld = Some d ->
  m_dicts sigma !! ls = Some s ->
  Request.__init__ c u name (Some ld) (Some ls) kwargs sigma = (Ok r, sigma1) ->
  (m_dicts sigma1 !! ld = Some d /\ m_dicts sigma1 !! ls = Some s /\
   m_dicts sigma1 !! data r = Some d /\ m_dicts sigma1 !! settings r = Some s /\
   data r ≠ ld /\ data r ≠ ls /\ settings r ≠ ld /\ settings r ≠ ls) /\
  forall (r' : Request) (sigma2 : machine) (d' s' : dict),
    same_request r r' ->
    m_dicts sigma2 !! ld = Some d' ->
    m_dicts sigma2 !! ls = Some s' ->
    let sigma3 := (make (r', sigma2)).2.2 in
    m_dicts sigma3 !! ld = Some d' /\ m_dicts sigma3 !! ls = Some s'.
Proof.
  intros Hd Hs Hinit.
  destruct (init_copies _ _ _ _ _ _ _ _ _ _ _ Hd Hs Hinit)
    as (_ & Hnd & Hns & _ & Hcd & Hcs & Hsub).
  assert (data r ≠ ld) as H1 by (intros Heq; congruence).
  assert (data r ≠ ls) as H2 by (intros Heq; congruence).
  assert (settings r ≠ ld) as H3 by (intros Heq; congruence).
  assert (settings r ≠ ls) as H4 by (intros Heq; congruence).
  split.
  - split_and!; try done; by eapply lookup_weaken.
  - intros r' sigma2 d' s' (_ & _ & _ & Hdata & _) Hd' Hs'. simpl.
    pose proof (make_frame (r', sigma2)) as Hframe. simpl in Hframe.
    rewrite Hdata in Hframe. split; apply Hframe; done.
Qed.

(** C10.  When the [settings] of an authorized request hold a [session]
    key, every transport call of the request carries that value under
    [session] in the serialized mapping, whatever key the Session has:
    the key is written into [data], and [settings] is merged over it. *)
Theorem settings_session_overrides (r : Request) (sigma : machine)
    (st : dict) (v : value) :
  cls r = CAuthorizedRequest ->
  data r ≠ settings r ->
  m_dicts sigma !! settings r = Some st ->
  dict_wf st ->
  dict_get "session" st = Some v ->
  let run := AuthorizedRequest._make_request (r, sigma) in
  exists new, m_log run.2.2 = m_log sigma ++ new /\
    (forall c, EvHttp CAuthorizedRequest c ∈ new ->
       exists merged,
         c_data c = [("request-json", VStr (json_dumps (VDict merged)))] /\
         dict_get "session" merged = Some v) /\
    (forall R, run.1 = Ok R -> 1 <= http_calls_by CAuthorizedRequest new).
Proof.
  intros Hcls Hne Hst Hwf Hv. simpl.
  destruct (authorized_progress r sigma Hcls) as (new & n & f & P & _ & _ & Hn).
  destruct P as (_ & _ & Hlog & Hcount & _ & Hsent).
  exists new. split_and!; [done| |].
  - intros c Hc. destruct (Hsent c Hc) as (sigma' & u & Hframe & _ & ->).
    eexists. split; [reflexivity|].
    rewrite dict_get_merge.
    + unfold deref. rewrite (Hframe _ _ (not_eq_sym Hne) Hst). simpl.
      by rewrite Hv.
    + unfold deref. by rewrite (Hframe _ _ (not_eq_sym Hne) Hst).
  - intros R HR. rewrite HR in Hn. lia.
Qed.
End Ownership.

Lemma caller_mappings_untouched_witness :
  let d0 := [("image", VStr "m31.fits")] in
  let s0 := [("publicly_visible", VStr "n")] in
  exists r sigma1,
    (m_dicts sigma1 !! 1%positive = Some d0 /\
     m_dicts sigma1 !! 2%positive = Some s0 /\
     m_dicts sigma1 !! data r = Some d0 /\
     m_dicts sigma1 !! settings r = Some s0 /\
     data r ≠ 1%positive /\ data r ≠ 2%positive /\
     settings r ≠ 1%positive /\ settings r ≠ 2%positive) /\
    forall (r' : Request) (sigma2 : machine) (d' s' : dict),
      same_request r r' ->
      m_dicts sigma2 !! 1%positive = Some d' ->
      m_dicts sigma2 !! 2%positive = Some s' ->
      let sigma3 := (@make expired_once (r', sigma2)).2.2 in
      m_dicts sigma3 !! 1%positive = Some d' /\
      m_dicts sigma3 !! 2%positive = Some s'.
Proof.
  intros d0 s0. eexists _, _.
  eapply (@caller_mappings_untouched expired_once CAuthorizedRequest
            (Some "http://nova.astrometry.net/api/upload") "post"
            1%positive 2%positive [] (booted "K" d0 s0)).
  - vm_compute. reflexivity.
  - vm_compute. reflexivity.
  - vm_compute. reflexivity.
Defined.

Lemma settings_session_overrides_witness :
  let sigma := booted "K" [] [("session", VStr "mine")] in
  let run := @AuthorizedRequest._make_request expired_once
               (status_request, sigma) in
  exists new, m_log run.2.2 = m_log sigma ++ new /\
    (forall c, EvHttp CAuthorizedRequest c ∈ new ->
       exists merged,
         c_data c = [("request-json", VStr (render (VDict merged)))] /\
         dict_get "session" merged = Some (VStr "mine")) /\
    (forall R, run.1 = Ok R -> 1 <= http_calls_by CAuthorizedRequest new).
Proof.
  intros sigma.
  apply (@settings_session_overrides expired_once status_request sigma
           [("session", VStr "mine")] (VStr "mine")).
  - reflexivity.
  - done.
  - vm_compute. reflexivity.
  - apply dict_wf_singleton.
  - reflexivity.
Defined.

(** The run of the witness, spelled out: the Session's keys [s1] and [s2]
    never reach the service. *)
Example session_override_run :
  calls_of (m_log (@AuthorizedRequest._make_request expired_once
              (status_request,
               booted "K" [] [("session", VStr "mine")])).2.2) =
  let login := {| c_method := POST;
                  c_url := "http://nova.astrometry.net/api/login";
                  c_data := [("request-json", VStr "{apikey: K}")];
                  c_kwargs := [] |} in
  let send := {| c_method := GET;
                 c_url := "http://nova.astrometry.net/api/jobs";
                 c_data := [("request-json", VStr "{session: mine}")];
                 c_kwargs := [] |} in
  [login; send; login; send].
Proof. vm_compute. reflexivity. Qed.

(** The session key goes into the copy: after construction from the
    caller's dictionaries 1 and 2 and a send, the caller's [data] is what it
    was and the request's own [data], the dictionary 3, holds the key. *)
Example injection_goes_to_copy :
  let d0 := [("image", VStr "m31.fits")] in
  let run := (r ← AuthorizedRequest.__init__
                    (Some "http://nova.astrometry.net/api/upload") "post"
                    (Some 1%positive) (Some 2%positive) [];
              call_method r (@make expired_once)) (booted "K" d0 []) in
  m_dicts run.2 !! 1%positive = Some d0 /\
  m_dicts run.2 !! 3%positive = Some (d0 ++ [("session", VStr "s2")]).
Proof. vm_compute. by split. Qed.

(** ** The fixtures are what the constructors build *)

Example status_request_constructed :
  AuthorizedRequest.__init__ (Some "http://nova.astrometry.net/api/jobs")
    Request.default_method None None [] (boot "K")
  = (Ok status_request, booted "K" [] []).
Proof. vm_compute. reflexivity. Qed.

Example boot_constructed `{Collaborators} :
  Session.__init__ ∅ (VStr "K") None = Ok (m_session (boot "K")).
Proof. reflexivity. Qed.

(** * Further properties of the code *)

(** ** More on logging in *)

Section MoreLogin.
Context `{Collaborators}.

(** X2.  A login that goes to the network and is answered with status
    [success] and a [session] entry returns; the Session then holds that
    entry as its key and is logged in, with the API key it had.  A forced
    login on a Session that is logged in replaces the key in this way. *)
Theorem login_accepted_stores_key (force : bool) (sigma : machine)
    (resp : http_response) (R : dict) (k : value) :
  negb force && logged_in (m_session sigma) = false ->
  transport (calls_of (m_log sigma)) (login_call (api_key (m_session sigma)))
    = HResp resp ->
  r_json resp = Some (VDict R) ->
  dict_get "status" R = Some (VStr "success") ->
  dict_get "session" R = Some k ->
  (Session.login force sigma).1 = Ok tt /\
  m_session (Session.login force sigma).2
    = {| api_key := api_key (m_session sigma); key := Some k;
         logged_in := true |}.
Proof.
  intros Hskip Hresp Hjson Hst Hk.
  destruct (login_run _ _ Hskip)
    as (r & sigma3 & _ & Hsess & Hlog & _ & _ & Hurl & Hcall & ->).
  rewrite (make_request_eq _ _ _ Hurl), Hcall, Hlog. simpl.
  rewrite calls_of_app. simpl. rewrite app_nil_r, Hresp. simpl.
  rewrite Hjson. simpl. rewrite Hst. simpl. rewrite Hst. simpl.
  rewrite Hk. simpl. by rewrite Hsess.
Qed.

(** X3.  A login answered with status [success] but no [session] entry raises
    [KeyError]; the Session is not marked logged in and keeps the key it
    had. *)
Theorem login_without_session_entry (force : bool) (sigma : machine)
    (resp : http_response) (R : dict) :
  negb force && logged_in (m_session sigma) = false ->
  transport (calls_of (m_log sigma)) (login_call (api_key (m_session sigma)))
    = HResp resp ->
  r_json resp = Some (VDict R) ->
  dict_get "status" R = Some (VStr "success") ->
  dict_get "session" R = None ->
  (Session.login force sigma).1 = Raise (KeyError "session") /\
  m_session (Session.login force sigma).2 = m_session sigma.
Proof.
  intros Hskip Hresp Hjson Hst Hk.
  destruct (login_run _ _ Hskip)
    as (r & sigma3 & _ & Hsess & Hlog & _ & _ & Hurl & Hcall & ->).
  rewrite (make_request_eq _ _ _ Hurl), Hcall, Hlog. simpl.
  rewrite calls_of_app. simpl. rewrite app_nil_r, Hresp. simpl.
  rewrite Hjson. simpl. rewrite Hst. simpl. rewrite Hst. simpl.
  rewrite Hk. simpl. by rewrite Hsess.
Qed.

(** X5.  Whatever a login meets, it never changes the API key and never drops
    or changes a dictionary; and a login that raises, for any reason,
    leaves the whole Session as it was. *)
Theorem login_failure_keeps_session (force : bool) (sigma : machine) :
  api_key (m_session (Session.login force sigma).2) = api_key (m_session sigma) /\
  m_dicts sigma ⊆ m_dicts (Session.login force sigma).2 /\
  forall e, (Session.login force sigma).1 = Raise e ->
    m_session (Session.login force sigma).2 = m_session sigma.
Proof.
  destruct (login_effect force sigma) as (Hsub & Hkey & _ & Hout).
  split_and!; [done | done |].
  intros e He. by rewrite He in Hout.
Qed.

(** X6.  A login that is not skipped makes exactly one transport call, however
    it ends: a POST to the login URL whose only form field is
    [request-json], holding the serialized [{'apikey': api_key}], with no
    further arguments. *)
Theorem login_sends_one_post (force : bool) (sigma : machine) :
  negb force && logged_in (m_session sigma) = false ->
  m_log (Session.login force sigma).2 =
    m_log sigma ++
    [EvLogin force;
     EvHttp CPostRequest
       {| c_method := POST; c_url := login_url;
          c_data := [("request-json",
                      VStr (json_dumps
                              (VDict [("apikey", api_key (m_session sigma))])))];
          c_kwargs := [] |}].
Proof.
  intros Hskip. destruct (login_effect force sigma) as (_ & _ & Hlog & _).
  by rewrite Hskip in Hlog.
Qed.

(** [login] keeps the invariant of the Session, and after a login that
    returns the Session is logged in; if it satisfied the invariant before,
    it has a key. *)
Lemma login_invariant (force : bool) (sigma : machine) :
  session_ok (m_session sigma) ->
  session_ok (m_session (Session.login force sigma).2) /\
  ((Session.login force sigma).1 = Ok tt ->
   logged_in (m_session (Session.login force sigma).2) = true /\
   is_Some (key (m_session (Session.login force sigma).2))).
Proof.
  intros Hok. destruct (login_effect force sigma) as (_ & _ & _ & Hout).
  destruct (negb force && logged_in (m_session sigma)) eqn:Hskip.
  - rewrite (login_skip _ _ Hskip) in *. simpl in *.
    apply andb_prop in Hskip as [_ Hin]. split; [done|].
    intros _. split; [done | by apply Hok].
  - destruct (Session.login force sigma) as [[[]|e] sigma']; simpl in *.
    + destruct Hout as [Hin Hkey]. split; [intros _; by apply Hkey|].
      intros _. split; [done | by apply Hkey].
    + rewrite Hout. split; [done | done].
Qed.

(** X4.  [LoginFailedException] is raised exactly by a login that goes to the
    network and is answered with a mapping whose status is neither
    [success] nor [error]; its message is the text of that mapping. *)
Theorem login_failed_iff (force : bool) (sigma : machine) (m : string) :
  (Session.login force sigma).1 = Raise (LoginFailedException m) <->
  negb force && logged_in (m_session sigma) = false /\
  exists resp R,
    transport (calls_of (m_log sigma)) (login_call (api_key (m_session sigma)))
      = HResp resp /\
    r_json resp = Some (VDict R) /\
    dict_get "status" R ≠ Some (VStr "error") /\
    dict_get "status" R ≠ Some (VStr "success") /\
    m = py_str (VDict R).
Proof.
  split.
  - destruct (negb force && logged_in (m_session sigma)) eqn:Hskip.
    { by rewrite (login_skip _ _ Hskip). }
    intros Hrun. split; [done|]. revert Hrun.
    destruct (login_run _ _ Hskip)
      as (r & sigma3 & _ & _ & Hlog & _ & _ & Hurl & Hcall & ->).
    rewrite (make_request_eq _ _ _ Hurl), Hcall, Hlog. simpl.
    rewrite calls_of_app. simpl. rewrite app_nil_r.
    destruct (transport _ _) as [resp|?]; simpl; [|done].
    destruct (r_json resp) as [v|] eqn:Hjson; simpl; [|done].
    destruct (Request.check_response v) as [[]|e] eqn:Hchk; simpl.
    + destruct v as [| | | | |R]; simpl; try done.
      destruct (value_is_str (default VNone (dict_get "status" R)) "success")
        eqn:Hs; simpl.
      { by destruct (dict_get "session" R). }
      intros [= <-]. exists resp, R. split_and!; try done.
      * intros Hst. simpl in Hchk. rewrite Hst in Hchk. simpl in Hchk.
        destruct (dict_get "errormessage" R) as [[| | |t| |]|]; try done.
        destruct (String.eqb t no_session_in_json); [done|].
        by destruct (String.prefix "no session with key" t).
      * intros Hst. rewrite Hst in Hs. done.
    + intros [= ->]. destruct v as [| | | | |R]; simpl in Hchk; try done.
      destruct (value_is_str _ _); [|done].
      destruct (dict_get "errormessage" R) as [[| | |t| |]|]; try done.
      destruct (String.eqb t no_session_in_json); [done|].
      by destruct (String.prefix "no session with key" t).
  - intros (Hskip & resp & R & Hresp & Hjson & Herr & Hsucc & ->).
    by destruct (login_refused_status _ _ _ _ Hskip Hresp Hjson Herr Hsucc).
Qed.
End MoreLogin.

Lemma login_accepted_stores_key_witness :
  (@Session.login expired_once false (boot "K")).1 = Ok tt /\
  m_session (@Session.login expired_once false (boot "K")).2
    = {| api_key := VStr "K"; key := Some (VStr "s1"); logged_in := true |}.
Proof.
  eapply (@login_accepted_stores_key expired_once false (boot "K")).
  - reflexivity.
  - vm_compute. reflexivity.
  - reflexivity.
  - reflexivity.
  - reflexivity.
Defined.

Lemma login_without_session_entry_witness :
  let service := answers (json_body (VDict [("status", VStr "success")])) in
  (@Session.login service true (boot "K")).1 = Raise (KeyError "session") /\
  m_session (@Session.login service true (boot "K")).2 = m_session (boot "K").
Proof.
  intros service.
  eapply (@login_without_session_entry service true (boot "K")).
  - reflexivity.
  - vm_compute. reflexivity.
  - reflexivity.
  - reflexivity.
  - reflexivity.
Defined.

Lemma login_failure_keeps_session_witness :
  m_session (@Session.login login_refused false (boot "K")).2
  = m_session (boot "K").
Proof.
  eapply (proj2 (proj2 (@login_failure_keeps_session login_refused false
                          (boot "K")))).
  vm_compute. reflexivity.
Defined.

Lemma login_sends_one_post_witness :
  m_log (@Session.login bad_apikey true (boot "K")).2 =
    [EvLogin true;
     EvHttp CPostRequest
       {| c_method := POST; c_url := "http://nova.astrometry.net/api/login";
          c_data := [("request-json", VStr "{apikey: K}")];
          c_kwargs := [] |}].
Proof.
  apply (@login_sends_one_post bad_apikey true (boot "K")). reflexivity.
Defined.

Lemma login_failed_iff_witness :
  (@Session.login login_refused false (boot "K")).1
  = Raise (LoginFailedException "<response>").
Proof.
  apply (@login_failed_iff login_refused false (boot "K") "<response>").
  split; [reflexivity|].
  exists {| r_text := "<body>";
            r_json := Some (VDict [("status", VStr "failure")]) |},
         [("status", VStr "failure")].
  split_and!; [vm_compute; reflexivity | reflexivity | done | done | reflexivity].
Defined.

(** ** More on the base request *)

Section MoreRequest.
Context `{Collaborators}.

(** What a constructed request holds: the arguments as given, no response
    yet, and private dictionaries with the contents of the mappings it was
    given. *)
Lemma init_fields (c : pyclass) (u : option string) (name : string)
    (d s : option loc) (kwargs : dict) (sigma sigma1 : machine) (r : Request) :
  allocated sigma s ->
  Request.__init__ c u name d s kwargs sigma = (Ok r, sigma1) ->
  cls r = c /\ url r = u /\ arguments r = kwargs /\ response r = VNone /\
  Request._method_dict (lower name) = Some (method r) /\
  m_dicts sigma1 !! data r = Some (given sigma d) /\
  m_dicts sigma1 !! settings r = Some (given sigma s) /\
  m_log sigma1 = m_log sigma /\ m_session sigma1 = m_session sigma.
Proof.
  intros Hs. unfold Request.__init__. unfold_monad. simpl.
  set (D0 := m_dicts sigma). set (l1 := fresh (dom D0)).
  assert (D0 !! l1 = None) as Hl1 by apply lookup_fresh.
  assert (match d with Some l => copy l | None => alloc [] end sigma
          = (Ok l1, set_dicts (insert l1 (given sigma d)) sigma)) as ->.
  { by destruct d. }
  simpl. fold D0.
  set (D1 := <[l1 := given sigma d]> D0). set (l2 := fresh (dom D1)).
  assert (D1 !! l2 = None) as Hl2 by apply lookup_fresh.
  assert (l1 ≠ l2) as Hne.
  { intros Heq. rewrite <- Heq in Hl2. unfold D1 in Hl2.
    by rewrite lookup_insert_eq in Hl2. }
  assert (match s with Some l => copy l | None => alloc [] end
            (set_dicts (insert l1 (given sigma d)) sigma)
          = (Ok l2, set_dicts (insert l2 (given sigma s))
                      (set_dicts (insert l1 (given sigma d)) sigma))) as ->.
  { destruct s as [l|]; [|done]. unfold copy, alloc, deref. simpl.
    fold D0 D1 l2. destruct (Hs l eq_refl) as [x Hx]. fold D0 in Hx.
    unfold D1. rewrite lookup_insert_ne; [done|]. intros ->. congruence. }
  simpl. destruct (Request._method_dict (lower name)) as [f|]; simpl; [|done].
  intros [= <- <-]. simpl. fold D0 D1 l2. split_and!; try done.
  - rewrite lookup_insert_ne by done. unfold D1. by rewrite lookup_insert_eq.
  - by rewrite lookup_insert_eq.
Qed.

(** X8.  A base send reads: whatever comes back, the dictionaries and the
    Session are what they were, and the request has the same class, URL,
    method, dictionaries and arguments. *)
Theorem base_send_reads_only (s : Request * machine) :
  m_dicts (Request._make_request s).2.2 = m_dicts s.2 /\
  m_session (Request._make_request s).2.2 = m_session s.2 /\
  same_request s.1 (Request._make_request s).2.1.
Proof. destruct (make_request_effect s) as (? & ? & ? & _). done. Qed.

(** X9.  What a base send with a URL leaves in the request and on the output.
    It makes one transport call.  When the transport raises, the error is
    [RequestException], nothing is printed and [response] is what it was.
    When a response arrives its text is printed, decodable or not; an
    undecodable body raises the decoding error and leaves [response]; a
    decoded body is stored in [response] before the check, so it is there
    also when the check raises. *)
Theorem response_attribute (self : Request) (sigma : machine) (u : string) :
  url self = Some u ->
  let answer := transport (calls_of (m_log sigma))
                  (Request.request_call sigma self u) in
  let run := Request._make_request (self, sigma) in
  m_log run.2.2 =
    m_log sigma ++ [EvHttp (cls self) (Request.request_call sigma self u)] /\
  (forall msg, answer = HRaise msg ->
     run.1 = Raise (RequestException msg) /\
     response run.2.1 = response self /\
     m_stdout run.2.2 = m_stdout sigma) /\
  (forall resp, answer = HResp resp ->
     m_stdout run.2.2 = m_stdout sigma ++ ["Response: " +:+ r_text resp] /\
     (r_json resp = None ->
      run.1 = Raise JSONDecodeError /\ response run.2.1 = response self) /\
     (forall v, r_json resp = Some v -> response run.2.1 = v)).
Proof.
  intros Hu. simpl. rewrite (make_request_eq _ _ _ Hu). simpl.
  destruct (transport _ _) as [resp|msg]; simpl.
  - destruct (r_json resp) as [v|] eqn:Hj; simpl; split_and!; try done.
    + intros resp' [= <-]. rewrite Hj. split_and!; [done | done |].
      by intros v' [= <-].
    + intros resp' [= <-]. rewrite Hj. split_and!; done.
  - split_and!; try done. by intros msg' [= <-].
Qed.

(** X10.  Responses the check has no case for.  A decoded body that is not a
    mapping raises [AttributeError]; an error response without
    [errormessage] raises [KeyError]; an error response whose
    [errormessage] is not a string raises [AttributeError]. *)
Theorem malformed_responses (self : Request) (sigma : machine) (u : string)
    (resp : http_response) (v : value) :
  url self = Some u ->
  transport (calls_of (m_log sigma)) (Request.request_call sigma self u)
    = HResp resp ->
  r_json resp = Some v ->
  let out := (Request._make_request (self, sigma)).1 in
  ((forall R, v ≠ VDict R) -> out = Raise (AttributeError "get")) /\
  (forall R, v = VDict R -> dict_get "status" R = Some (VStr "error") ->
     (dict_get "errormessage" R = None ->
      out = Raise (KeyError "errormessage")) /\
     (forall m, dict_get "errormessage" R = Some m ->
        (forall text, m ≠ VStr text) ->
        out = Raise (AttributeError "startswith"))).
Proof.
  intros Hu Hresp Hjson. simpl.
  rewrite (make_request_eq _ _ _ Hu). simpl. rewrite Hresp. simpl.
  rewrite Hjson. simpl. split.
  - intros Hv. destruct v; try done. by destruct (Hv d).
  - intros R -> Hst. simpl. rewrite Hst. simpl. split.
    + by intros ->.
    + intros m -> Hm. destruct m; try done. by destruct (Hm s).
Qed.

(** X11.  [InvalidSessionError] is raised by a base send exactly when the
    transport hands back a response that decodes to a mapping with status
    [error] whose [errormessage] is a string starting with
    [no session with key]; the error carries that string. *)
Theorem expired_session_iff (self : Request) (sigma : machine) (u : string)
    (msg : string) :
  url self = Some u ->
  (Request._make_request (self, sigma)).1 = Raise (InvalidSessionError msg) <->
  exists resp R,
    transport (calls_of (m_log sigma)) (Request.request_call sigma self u)
      = HResp resp /\
    r_json resp = Some (VDict R) /\
    dict_get "status" R = Some (VStr "error") /\
    dict_get "errormessage" R = Some (VStr msg) /\
    String.prefix "no session with key" msg = true.
Proof.
  intros Hu. split.
  - destruct (Request._make_request (self, sigma)) as [out s'] eqn:Hrun.
    simpl. intros ->.
    destruct (invalid_session_inv _ _ _ _ Hrun)
      as (u' & resp & R & Hu' & Hresp & Hjson & Hst & Hmsg & Hp).
    assert (u' = u) as -> by congruence. eauto 10.
  - intros (resp & R & Hresp & Hjson & Hst & Hmsg & Hp).
    rewrite (make_request_eq _ _ _ Hu). simpl. rewrite Hresp. simpl.
    rewrite Hjson. simpl. rewrite Hst, Hmsg. simpl.
    destruct (String.eqb msg no_session_in_json) eqn:Heq.
    + apply String.eqb_eq in Heq. subst msg. done.
    + by rewrite Hp.
Qed.

(** X12.  A request built without a URL is built all the same; it is the send
    that raises [AttributeError], before any transport call, leaving the
    machine as it was. *)
Theorem send_without_url (c : pyclass) (name : string) (d s : option loc)
    (kwargs : dict) (sigma sigma1 : machine) (r : Request) :
  c ≠ CAuthorizedRequest ->
  allocated sigma s ->
  Request.__init__ c None name d s kwargs sigma = (Ok r, sigma1) ->
  make (r, sigma1) = (Raise (AttributeError "url"), (r, sigma1)).
Proof.
  intros Hc Hs Hinit.
  destruct (init_fields _ _ _ _ _ _ _ _ _ Hs Hinit) as (Hcls & Hurl & _).
  unfold make. unfold_monad. simpl. rewrite Hcls.
  destruct c; [| |done]; by apply make_request_no_url.
Qed.

End MoreRequest.

(** ** More on the authorized request *)

Section MoreAuthorized.
Context `{Collaborators}.

(** A base send that returns has stored what it returns. *)
Lemma make_request_ok (s s' : Request * machine) (R : value) :
  Request._make_request s = (Ok R, s') ->
  response s'.1 = R /\ same_request s.1 s'.1 /\
  m_dicts s'.2 = m_dicts s.2 /\ m_session s'.2 = m_session s.2.
Proof.
  intros Hrun. destruct (make_request_effect s) as (Hd & Hs & Hsame & _).
  rewrite Hrun in Hd, Hs, Hsame. simpl in *. split_and!; try done.
  destruct s as [self sigma]. destruct (url self) as [u|] eqn:Hu.
  - rewrite (make_request_eq _ _ _ Hu) in Hrun. simpl in Hrun.
    destruct (transport _ _) as [resp|?]; [|done].
    destruct (r_json resp) as [v|]; [|done].
    destruct (Request.check_response v); [|done].
    by injection Hrun as <- <-.
  - by rewrite (make_request_no_url _ _ Hu) in Hrun.
Qed.

(** Setting the session field, when it succeeds. *)
Lemma set_session_field_ok (s s' : Request * machine) :
  AuthorizedRequest.set_session_field s = (Ok tt, s') ->
  s'.1 = s.1 /\ m_session s'.2 = m_session s.2 /\ m_log s'.2 = m_log s.2 /\
  exists k, key (m_session s.2) = Some k /\
    dict_get "session" (deref s'.2 (data s.1)) = Some k.
Proof.
  rewrite set_session_field_eq.
  destruct (key (m_session s.2)) as [k|]; [|done].
  intros [= <-]. simpl. split_and!; try done.
  exists k. split; [done|]. unfold deref at 1. simpl.
  rewrite lookup_insert_eq. simpl. apply dict_get_set_eq.
Qed.

(** X15.  An error of the first attempt other than [InvalidSessionError] goes to
    the caller as it is: no forced login, no second attempt.  For
    [NoSessionError] and [InvalidRequest] the request has made exactly one
    transport call. *)
Theorem other_errors_not_retried (r : Request) (sigma sigma1 : machine)
    (s2 s3 : Request * machine) (e : exn) :
  cls r = CAuthorizedRequest ->
  Session.login false sigma = (Ok tt, sigma1) ->
  AuthorizedRequest.set_session_field (r, sigma1) = (Ok tt, s2) ->
  Request._make_request s2 = (Raise e, s3) ->
  (forall m, e ≠ InvalidSessionError m) ->
  AuthorizedRequest._make_request (r, sigma) = (Raise e, s3) /\
  exists new, m_log s3.2 = m_log sigma ++ new /\
    logins true new = 0 /\ logins false new = 1 /\
    http_calls_by CAuthorizedRequest new <= 1 /\
    match e with
    | NoSessionError _ | InvalidRequest _ =>
        http_calls_by CAuthorizedRequest new = 1
    | _ => True
    end.
Proof.
  intros Hcls H1 H2 H3 He. split.
  { rewrite authorized_eq, H1, H2, H3.
    destruct e; try done. by destruct (He msg). }
  destruct (login_effect false sigma) as (_ & _ & Hlog1 & _).
  rewrite H1 in Hlog1. simpl in Hlog1.
  destruct (set_session_field_ok _ _ H2) as (Hr2 & _ & Hlog2 & _).
  simpl in Hr2, Hlog2.
  destruct (make_request_effect s2) as (_ & _ & _ & delta & Hlog3 & Hdelta).
  rewrite H3 in Hlog3. simpl in Hlog3.
  assert (match e with
          | NoSessionError _ | InvalidRequest _ => exists c, delta = [EvHttp (cls s2.1) c]
          | _ => True
          end) as Hexact.
  { destruct e; try done;
      (destruct (make_request_checked _ _ _ H3 I) as (u & _ & Hlog3');
       rewrite Hlog3 in Hlog3'; apply app_inv_head in Hlog3'; eauto). }
  rewrite Hr2, Hcls in *.
  eexists. split.
  { rewrite Hlog3, Hlog2, Hlog1, <- app_assoc. reflexivity. }
  unfold logins, http_calls_by, count_events.
  rewrite !List.filter_app, !length_app.
  destruct (logged_in (m_session sigma)); simpl;
    destruct Hdelta as [->|(u & _ & ->)]; simpl; rewrite ?Hcls; simpl;
    (split_and!; [lia | lia | lia |]);
    destruct e; try done; destruct Hexact as (c & [=]).
Qed.

(** X16.  When the login at the start of an authorized send raises, the send
    raises the same error and the request is not sent; the Session is what
    it was. *)
Theorem failed_login_sends_nothing (r : Request) (sigma sigma1 : machine)
    (e : exn) :
  Session.login false sigma = (Raise e, sigma1) ->
  AuthorizedRequest._make_request (r, sigma) = (Raise e, (r, sigma1)) /\
  m_session sigma1 = m_session sigma /\
  exists new, m_log sigma1 = m_log sigma ++ new /\
    http_calls_by CAuthorizedRequest new = 0.
Proof.
  intros H1. split; [by rewrite authorized_eq, H1|].
  destruct (login_effect false sigma) as (_ & _ & Hlog & Hout).
  rewrite H1 in Hlog, Hout. simpl in Hlog, Hout. split; [done|].
  eexists. split; [done|].
  unfold http_calls_by, count_events.
  by destruct (logged_in (m_session sigma)).
Qed.

(** X17.  When the forced login after an expired session raises, the send raises
    that error after one transport call of the request and one forced
    login, and the Session is left as the first login left it: still
    marked logged in, with the key the service turned down. *)
Theorem failed_relogin_propagates (r : Request) (sigma sigma1 sigma4 : machine)
    (s2 s3 : Request * machine) (msg : string) (e : exn) :
  cls r = CAuthorizedRequest ->
  Session.login false sigma = (Ok tt, sigma1) ->
  AuthorizedRequest.set_session_field (r, sigma1) = (Ok tt, s2) ->
  Request._make_request s2 = (Raise (InvalidSessionError msg), s3) ->
  Session.login true (add_stdout "Session expired, loggin in again" s3.2)
    = (Raise e, sigma4) ->
  AuthorizedRequest._make_request (r, sigma) = (Raise e, (s3.1, sigma4)) /\
  m_session sigma4 = m_session sigma1 /\
  logged_in (m_session sigma4) = true /\
  exists new, m_log sigma4 = m_log sigma ++ new /\
    http_calls_by CAuthorizedRequest new = 1 /\ logins true new = 1.
Proof.
  intros Hcls H1 H2 H3 H4. split.
  { rewrite authorized_eq, H1, H2, H3. simpl. by rewrite H4. }
  destruct (login_effect false sigma) as (_ & _ & Hlog1 & Hout1).
  rewrite H1 in Hlog1, Hout1. simpl in Hlog1, Hout1.
  destruct (set_session_field_ok _ _ H2) as (Hr2 & Hsess2 & Hlog2 & _).
  simpl in Hr2, Hsess2, Hlog2.
  destruct (make_request_checked _ _ _ H3 I) as (u & _ & Hlog3).
  destruct (make_request_effect s2) as (_ & Hsess3 & _).
  rewrite H3 in Hsess3. simpl in Hsess3.
  destruct (login_effect true (add_stdout "Session expired, loggin in again" s3.2))
    as (_ & _ & Hlog4 & Hout4).
  rewrite H4 in Hlog4, Hout4. simpl in Hlog4, Hout4.
  assert (m_session sigma4 = m_session sigma1) as Hsess by congruence.
  split; [done|]. split; [rewrite Hsess; by destruct Hout1|].
  eexists. split.
  { rewrite Hlog4, Hlog3, Hlog2, Hlog1, <- !app_assoc. reflexivity. }
  unfold logins, http_calls_by, count_events.
  rewrite !List.filter_app, !length_app. rewrite Hr2, Hcls.
  by destruct (logged_in (m_session sigma)).
Qed.

(** X18.  On a Session that is logged in, an authorized send whose first attempt
    returns makes one transport call in all, the send itself, and leaves
    the Session as it was. *)
Theorem logged_in_send_single_call (r : Request) (sigma : machine)
    (s2 s3 : Request * machine) (R : value) :
  cls r = CAuthorizedRequest ->
  logged_in (m_session sigma) = true ->
  AuthorizedRequest.set_session_field (r, add_event (EvLogin false) sigma)
    = (Ok tt, s2) ->
  Request._make_request s2 = (Ok R, s3) ->
  AuthorizedRequest._make_request (r, sigma) = (Ok R, s3) /\
  m_session s3.2 = m_session sigma /\
  exists new, m_log s3.2 = m_log sigma ++ new /\
    http_calls new = 1 /\ http_calls_by CAuthorizedRequest new = 1.
Proof.
  intros Hcls Hin H2 H3.
  assert (Session.login false sigma = (Ok tt, add_event (EvLogin false) sigma))
    as H1 by (apply login_skip; by rewrite Hin).
  split; [by rewrite authorized_eq, H1, H2, H3|].
  destruct (set_session_field_ok _ _ H2) as (Hr2 & Hsess2 & Hlog2 & _).
  simpl in Hr2, Hsess2, Hlog2.
  destruct (make_request_checked _ _ _ H3 I) as (u & _ & Hlog3).
  destruct (make_request_ok _ _ _ H3) as (_ & _ & _ & Hsess3).
  split; [congruence|].
  eexists. split.
  { rewrite Hlog3, Hlog2. simpl. rewrite <- app_assoc. reflexivity. }
  unfold http_calls, http_calls_by, count_events. simpl.
  by rewrite Hr2, Hcls.
Qed.

(** X19.  Once the session field is set, the payload of the request carries the
    key of the Session under [session], provided [settings] has no such
    key of its own; every other key is bound as before. *)
Theorem session_key_reaches_payload (r : Request) (sigma : machine)
    (k : value) (st : dict) :
  key (m_session sigma) = Some k ->
  data r ≠ settings r ->
  m_dicts sigma !! settings r = Some st ->
  dict_wf st ->
  dict_get "session" st = None ->
  let sigma' := (AuthorizedRequest.set_session_field (r, sigma)).2.2 in
  exists merged,
    Request.payload sigma' r
      = [("request-json", VStr (json_dumps (VDict merged)))] /\
    dict_get "session" merged = Some k /\
    forall k', k' ≠ "session" ->
      dict_get k' merged = dict_get k' (dict_merge (deref sigma (data r)) st).
Proof.
  intros Hk Hne Hst Hwf Hnone. simpl. rewrite set_session_field_eq. simpl.
  rewrite Hk. simpl. unfold Request.payload, deref. simpl.
  rewrite lookup_insert_eq, lookup_insert_ne by done. rewrite Hst. simpl.
  eexists. split; [reflexivity|]. split.
  - rewrite dict_get_merge by done. rewrite Hnone. apply dict_get_set_eq.
  - intros k' Hk'. rewrite !dict_get_merge by done.
    destruct (dict_get k' st); [done|]. by apply dict_get_set_ne.
Qed.

(** X20.  After an authorized send that returns, the request holds the response
    it returned, the Session is logged in, and the request's [data] carries
    the key the Session now has. *)
Theorem successful_send_state (r r' : Request) (sigma sigma' : machine)
    (R : value) :
  AuthorizedRequest._make_request (r, sigma) = (Ok R, (r', sigma')) ->
  response r' = R /\ same_request r r' /\
  logged_in (m_session sigma') = true /\
  exists k, key (m_session sigma') = Some k /\
    dict_get "session" (deref sigma' (data r)) = Some k.
Proof.
  rewrite authorized_eq.
  destruct (login_effect false sigma) as (_ & _ & _ & Hout1).
  destruct (Session.login false sigma) as [[[]|e] sigma1]; [|done].
  simpl in Hout1. destruct Hout1 as [Hin1 _].
  destruct (AuthorizedRequest.set_session_field (r, sigma1))
    as [[[]|e] s2] eqn:H2; [|done].
  destruct (set_session_field_ok _ _ H2) as (Hr2 & Hsess2 & _ & k & Hk & Hget).
  simpl in Hr2, Hsess2, Hk, Hget.
  destruct (Request._make_request s2) as [[v|e] s3] eqn:H3.
  - intros [= -> ->].
    destruct (make_request_ok _ _ _ H3) as (Hresp & Hsame & Hd & Hs).
    simpl in *. rewrite Hr2 in Hsame. split_and!; [done | done | congruence |].
    exists k. split; [congruence|]. unfold deref in *. by rewrite Hd.
  - destruct e; try done.
    destruct (make_request_effect s2) as (_ & _ & Hsame3 & _).
    rewrite H3 in Hsame3. simpl in Hsame3. rewrite Hr2 in Hsame3.
    destruct (login_effect true
                (add_stdout "Session expired, loggin in again" s3.2))
      as (_ & _ & _ & Hout4).
    destruct (Session.login true _) as [[[]|e] sigma4]; [|done].
    simpl in Hout4. destruct Hout4 as [Hin4 _].
    destruct (AuthorizedRequest.set_session_field (s3.1, sigma4))
      as [[[]|e] s5] eqn:H5; [|done].
    destruct (set_session_field_ok _ _ H5)
      as (Hr5 & Hsess5 & _ & k' & Hk' & Hget').
    simpl in Hr5, Hsess5, Hk', Hget'.
    intros H6. destruct (make_request_ok _ _ _ H6) as (Hresp & Hsame & Hd & Hs).
    simpl in *. rewrite Hr5 in Hsame.
    split_and!; [done | by eapply same_request_trans | congruence |].
    exists k'. split; [congruence|].
    destruct Hsame3 as (_ & _ & _ & Hdata & _). rewrite Hdata in Hget'.
    unfold deref in *. by rewrite Hd.
Qed.
End MoreAuthorized.

(** ** The invariant of the Session *)

Section Invariant.
Context `{Collaborators}.

Lemma check_response_not_key (v : value) :
  Request.check_response v ≠ Raise (AttributeError "key").
Proof.
  destruct v as [| | | | |R]; simpl; try done.
  destruct (value_is_str _ _); [|done].
  destruct (dict_get "errormessage" R) as [[| | |t| |]|]; try done.
  destruct (String.eqb t no_session_in_json); [done|].
  by destruct (String.prefix "no session with key" t).
Qed.

Lemma make_request_not_key (s : Request * machine) :
  (Request._make_request s).1 ≠ Raise (AttributeError "key").
Proof.
  destruct s as [self sigma]. destruct (url self) as [u|] eqn:Hu.
  - rewrite (make_request_eq _ _ _ Hu). simpl.
    destruct (transport _ _) as [resp|?]; simpl; [|done].
    destruct (r_json resp) as [v|]; simpl; [|done].
    pose proof (check_response_not_key v) as Hv.
    destruct (Request.check_response v) as [[]|e]; simpl; [done|].
    intros [= ->]. by apply Hv.
  - by rewrite (make_request_no_url _ _ Hu).
Qed.

Lemma login_not_key (force : bool) (sigma : machine) :
  (Session.login force sigma).1 ≠ Raise (AttributeError "key").
Proof.
  destruct (negb force && logged_in (m_session sigma)) eqn:Hskip.
  - by rewrite (login_skip _ _ Hskip).
  - destruct (login_run _ _ Hskip) as (r & sigma3 & _ & _ & _ & _ & _ & _ & _ & ->).
    pose proof (make_request_not_key (r, sigma3)) as Hr.
    destruct (Request._make_request (r, sigma3)) as [[v|e] s]; simpl in *;
      [|intros [= ->]; by apply Hr].
    destruct v as [| | | | |R]; try done.
    destruct (value_is_str _ _); [|done]. by destruct (dict_get "session" R).
Qed.

(** X7.  The invariant of the Session (a Session that believes it is logged
    in has a key) holds at construction and is kept by [login] and by the
    authorized send, however they end.  Under it a login that returns
    leaves a Session that is logged in and has a key, and no authorized
    send fails for want of the Session's [key] attribute. *)
Theorem session_invariant (sigma : machine) :
  (forall environ k location s,
     Session.__init__ environ k location = Ok s -> session_ok s) /\
  (session_ok (m_session sigma) ->
   (forall force,
      session_ok (m_session (Session.login force sigma).2) /\
      ((Session.login force sigma).1 = Ok tt ->
       logged_in (m_session (Session.login force sigma).2) = true /\
       is_Some (key (m_session (Session.login force sigma).2)))) /\
   (forall r,
      session_ok (m_session (AuthorizedRequest._make_request (r, sigma)).2.2) /\
      (AuthorizedRequest._make_request (r, sigma)).1
        ≠ Raise (AttributeError "key"))).
Proof.
  split.
  { intros environ k location s.
    unfold Session.__init__, Session.os_environ_get, Session.fresh_session.
    intros Hinit Hin.
    destruct k; try (injection Hinit as <-; done).
    destruct location as [path|].
    - destruct (read_api_key path); [|done]. by injection Hinit as <-.
    - by injection Hinit as <-. }
  intros Hok. split; [intros force; by apply login_invariant|].
  intros r. rewrite authorized_eq.
  destruct (login_invariant false sigma Hok) as (Hok1 & Hkey1).
  pose proof (login_not_key false sigma) as Hnk1.
  destruct (Session.login false sigma) as [[[]|e] sigma1]; simpl in *;
    [|split; [done | intros [= ->]; by apply Hnk1]].
  destruct (Hkey1 eq_refl) as (_ & k & Hk).
  rewrite set_session_field_eq. simpl. rewrite Hk.
  set (s2 := (r, set_dicts _ sigma1)).
  destruct (make_request_effect s2) as (_ & Hsess3 & _).
  pose proof (make_request_not_key s2) as Hnk3.
  destruct (Request._make_request s2) as [[v|e] s3]; simpl in *.
  { split; [by rewrite Hsess3 | done]. }
  assert (session_ok (m_session s3.2)) as Hok3 by by rewrite Hsess3.
  destruct e; try done.
  destruct (login_invariant true
              (add_stdout "Session expired, loggin in again" s3.2) Hok3)
    as (Hok4 & Hkey4).
  pose proof (login_not_key true
                (add_stdout "Session expired, loggin in again" s3.2)) as Hnk4.
  destruct (Session.login true _) as [[[]|e] sigma4]; simpl in *;
    [|split; [done | intros [= ->]; by apply Hnk4]].
  destruct (Hkey4 eq_refl) as (_ & k' & Hk').
  rewrite set_session_field_eq. simpl. rewrite Hk'.
  set (s5 := (s3.1, set_dicts _ sigma4)).
  destruct (make_request_effect s5) as (_ & Hsess6 & _).
  pose proof (make_request_not_key s5) as Hnk6.
  split; [by rewrite Hsess6 | done].
Qed.
End Invariant.

(** ** The merged mapping and the key of the Session *)

Lemma filter_agree {A} (P Q : A -> Prop) `{!forall x, Decision (P x)}
    `{!forall x, Decision (Q x)} (l : list A) :
  (forall x, x ∈ l -> P x <-> Q x) -> filter P l = filter Q l.
Proof.
  induction l as [|x l IH]; intros Hl; [done|].
  rewrite !filter_cons.
  rewrite IH by (intros y Hy; apply Hl; by apply list_elem_of_further).
  pose proof (Hl x (list_elem_of_here _ _)) as Hx.
  destruct (decide (P x)), (decide (Q x)); tauto.
Qed.

(** The keys of [{**d, **s}], in order: those of [d], then those of [s]
    that [d] does not have. *)
Lemma dict_merge_keys (d s : dict) :
  dict_wf s ->
  (dict_merge d s).*1 = d.*1 ++ filter (fun k => k ∉ d.*1) s.*1.
Proof.
  unfold dict_merge, dict_wf. revert d.
  induction s as [|[k v] s IH]; intros d Hs; csimpl in *.
  { by rewrite app_nil_r. }
  apply NoDup_cons in Hs as [Hk Hs]. rewrite IH by done.
  rewrite dict_set_keys, filter_cons.
  destruct (decide (k ∈ d.*1)) as [Hin|Hin].
  - by rewrite decide_False by auto.
  - rewrite decide_True by done. rewrite <- app_assoc. simpl. do 2 f_equal.
    apply filter_agree. intros x Hx. rewrite elem_of_app, list_elem_of_singleton.
    split; [tauto|]. intros Hxd [?| ->]; done.
Qed.

(** X14.  How the payload mapping is laid out.  The merge of [data] and
    [settings] lists the keys of [data] in their order, then the keys that
    only [settings] has, in theirs; it binds a key of [settings] as
    [settings] does and any other key as [data] does; and it holds no key
    twice. *)
Theorem merge_layout (d s : dict) :
  dict_wf d -> dict_wf s ->
  (dict_merge d s).*1 = d.*1 ++ filter (fun k => k ∉ d.*1) s.*1 /\
  dict_wf (dict_merge d s) /\
  forall k, dict_get k (dict_merge d s) =
              match dict_get k s with
              | Some v => Some v
              | None => dict_get k d
              end.
Proof.
  intros Hd Hs. split_and!.
  - by apply dict_merge_keys.
  - by apply dict_merge_wf.
  - intros k. by apply dict_get_merge.
Qed.

(** ** Where the API key comes from *)

(** X1.  The sources of the API key, in order.  A key given as argument is
    used, whatever the key file and the environment; without one, a key
    file decides alone, its reading error included; without either, the
    environment variable is used when it is set.  A Session that is
    constructed is not logged in and has no session key. *)
Theorem api_key_sources `{Collaborators} (environ : gmap string string) :
  (forall k location, k ≠ VNone ->
     Session.__init__ environ k location = Ok (Session.fresh_session k)) /\
  (forall path,
     Session.__init__ environ VNone (Some path) =
       match read_api_key path with
       | Ok text => Ok (Session.fresh_session (VStr text))
       | Raise e => Raise e
       end) /\
  (forall text, environ !! "ASTROMETRY_API_KEY" = Some text ->
     Session.__init__ environ VNone None
     = Ok (Session.fresh_session (VStr text))) /\
  (forall k location s, Session.__init__ environ k location = Ok s ->
     logged_in s = false /\ key s = None).
Proof.
  unfold Session.__init__, Session.os_environ_get. split_and!.
  - intros k location Hk. by destruct k.
  - done.
  - by intros text ->.
  - intros k location s Hinit.
    destruct k; try (injection Hinit as <-; done).
    destruct location as [path|].
    + destruct (read_api_key path); [|done]. by injection Hinit as <-.
    + by injection Hinit as <-.
Qed.

(** ** The traffic of an authorized send *)

Section Traffic.
Context `{Collaborators}.

Lemma login_traffic (force : bool) (sigma : machine) :
  exists delta,
    m_log (Session.login force sigma).2 = m_log sigma ++ delta /\
    http_calls delta <= 1 /\
    logins false delta = (if force then 0 else 1) /\
    logins true delta = (if force then 1 else 0).
Proof.
  destruct (login_effect force sigma) as (_ & _ & Hlog & _).
  eexists. split; [exact Hlog|].
  unfold http_calls, logins, count_events.
  destruct (negb force && logged_in (m_session sigma)), force; simpl; lia.
Qed.

Lemma send_traffic (s : Request * machine) :
  exists delta,
    m_log (Request._make_request s).2.2 = m_log s.2 ++ delta /\
    http_calls delta <= 1 /\ logins false delta = 0 /\ logins true delta = 0.
Proof.
  destruct (make_request_effect s) as (_ & _ & _ & delta & Hlog & Hdelta).
  exists delta. split; [done|].
  unfold http_calls, logins, count_events.
  destruct Hdelta as [->|(u & _ & ->)]; simpl; lia.
Qed.

(** X21.  The traffic of one authorized send, however it ends: [login()] is
    invoked exactly once without force and at most once with it, and the
    transport is called at most four times, logins included. *)
Theorem authorized_traffic_bound (r : Request) (sigma : machine) :
  exists new,
    m_log (AuthorizedRequest._make_request (r, sigma)).2.2
      = m_log sigma ++ new /\
    logins false new = 1 /\ logins true new <= 1 /\ http_calls new <= 4.
Proof.
  rewrite authorized_eq.
  destruct (login_traffic false sigma) as (d1 & Hl1 & Hc1 & Hn1 & Hf1).
  destruct (Session.login false sigma) as [[[]|e] sigma1]; simpl in *.
  2:{ exists d1. split_and!; [done | done | lia | lia]. }
  destruct (set_session_field_effect (r, sigma1)) as (_ & Hl2 & _).
  destruct (AuthorizedRequest.set_session_field (r, sigma1)) as [[[]|e] s2];
    simpl in *.
  2:{ exists d1. split_and!; [congruence | done | lia | lia]. }
  destruct (send_traffic s2) as (d3 & Hl3 & Hc3 & Hn3 & Hf3).
  assert (m_log (Request._make_request s2).2.2 = m_log sigma ++ d1 ++ d3)
    as Hl3' by by rewrite Hl3, Hl2, Hl1, <- app_assoc.
  assert (logins false (d1 ++ d3) = 1 /\ logins true (d1 ++ d3) = 0 /\
          http_calls (d1 ++ d3) <= 2) as (Hn13 & Hf13 & Hc13).
  { unfold logins, http_calls in *. rewrite !count_events_app. lia. }
  destruct (Request._make_request s2) as [[v|e] s3]; simpl in *.
  { exists (d1 ++ d3). split_and!; [done | done | lia | lia]. }
  destruct e; simpl;
    try (exists (d1 ++ d3); split_and!; [done | done | lia | lia]).
  destruct (login_traffic true
              (add_stdout "Session expired, loggin in again" s3.2))
    as (d4 & Hl4 & Hc4 & Hn4 & Hf4).
  simpl in Hl4.
  assert (logins false ((d1 ++ d3) ++ d4) = 1 /\
          logins true ((d1 ++ d3) ++ d4) = 1 /\
          http_calls ((d1 ++ d3) ++ d4) <= 3) as (Hn14 & Hf14 & Hc14).
  { unfold logins, http_calls in *. rewrite !count_events_app.
    rewrite count_events_app in Hn13, Hf13, Hc13. lia. }
  destruct (Session.login true _) as [[[]|e] sigma4]; simpl in *.
  2:{ exists ((d1 ++ d3) ++ d4). split_and!; [|done|lia|lia].
      by rewrite Hl4, Hl3', !app_assoc. }
  destruct (set_session_field_effect (s3.1, sigma4)) as (_ & Hl5 & _).
  destruct (AuthorizedRequest.set_session_field (s3.1, sigma4))
    as [[[]|e] s5]; simpl in *.
  2:{ exists ((d1 ++ d3) ++ d4). split_and!; [|done|lia|lia].
      by rewrite Hl5, Hl4, Hl3', !app_assoc. }
  destruct (send_traffic s5) as (d6 & Hl6 & Hc6 & Hn6 & Hf6).
  exists (((d1 ++ d3) ++ d4) ++ d6). split_and!.
  - by rewrite Hl6, Hl5, Hl4, Hl3', !app_assoc.
  - unfold logins in *. rewrite count_events_app. lia.
  - unfold logins in *. rewrite count_events_app. lia.
  - unfold http_calls in *. rewrite count_events_app. lia.
Qed.
End Traffic.

(** ** Runs of the further properties *)

Lemma dict_wf_pair (k1 k2 : string) (v1 v2 : value) :
  k1 ≠ k2 -> dict_wf [(k1, v1); (k2, v2)].
Proof.
  intros Hne. unfold dict_wf. simpl. apply NoDup_cons. split.
  - by apply not_elem_of_cons; split; [|apply not_elem_of_nil].
  - apply NoDup_singleton.
Qed.

Lemma response_attribute_witness :
  response (@Request._make_request (answers (api_error "no such job"))
              (plain_request, booted "K" [] [])).2.1
  = VDict [("status", VStr "error"); ("errormessage", VStr "no such job")].
Proof.
  edestruct (@response_attribute (answers (api_error "no such job"))
               plain_request (booted "K" [] [])
               "http://nova.astrometry.net/api/jobs" eq_refl)
    as (_ & _ & Hresp).
  edestruct Hresp as (_ & _ & Hv); [vm_compute; reflexivity|].
  apply Hv. reflexivity.
Defined.

Lemma malformed_responses_witness :
  (@Request._make_request (answers (json_body (VList [VInt 1])))
     (plain_request, booted "K" [] [])).1
  = Raise (AttributeError "get").
Proof.
  edestruct (@malformed_responses (answers (json_body (VList [VInt 1])))
               plain_request (booted "K" [] [])
               "http://nova.astrometry.net/api/jobs") as [Hnot _].
  - reflexivity.
  - vm_compute. reflexivity.
  - reflexivity.
  - apply Hnot. intros R HR. discriminate HR.
Defined.

Lemma expired_session_iff_witness :
  (@Request._make_request (answers (api_error "no session with key 12"))
     (plain_request, booted "K" [] [])).1
  = Raise (InvalidSessionError "no session with key 12").
Proof.
  apply (@expired_session_iff (answers (api_error "no session with key 12"))
           plain_request (booted "K" [] [])
           "http://nova.astrometry.net/api/jobs"); [reflexivity|].
  eexists _, _. split_and!.
  - vm_compute. reflexivity.
  - reflexivity.
  - reflexivity.
  - reflexivity.
  - reflexivity.
Defined.

Lemma send_without_url_witness :
  exists r sigma1,
    Request.__init__ CPostRequest None "post" None None [] (boot "K")
      = (Ok r, sigma1) /\
    @make (answers api_success) (r, sigma1)
      = (Raise (AttributeError "url"), (r, sigma1)).
Proof.
  eexists _, _. split; [vm_compute; reflexivity|].
  eapply (@send_without_url (answers api_success) CPostRequest "post"
            None None [] (boot "K")).
  - done.
  - intros l Hl. discriminate Hl.
  - vm_compute. reflexivity.
Defined.


Lemma other_errors_not_retried_witness :
  let service := scripted_service [login_accepted "s1";
                                   api_error "no such job"] in
  exists s3,
    @AuthorizedRequest._make_request service
      (status_request, booted "K" [] [])
    = (Raise (InvalidRequest "no such job"), s3) /\
    exists new, m_log s3.2 = m_log (booted "K" [] []) ++ new /\
      logins true new = 0 /\ http_calls_by CAuthorizedRequest new = 1.
Proof.
  intros service. eexists.
  edestruct (@other_errors_not_retried service status_request
               (booted "K" [] []))
    as (Hrun & new & Hlog & Hforced & _ & _ & Hcalls).
  - reflexivity.
  - vm_compute. reflexivity.
  - vm_compute. reflexivity.
  - vm_compute. reflexivity.
  - intros m Hm. discriminate Hm.
  - split; [exact Hrun|]. exists new. split_and!; [exact Hlog | exact Hforced |].
    exact Hcalls.
Defined.

Lemma failed_login_sends_nothing_witness :
  exists sigma1,
    @AuthorizedRequest._make_request bad_apikey
      (status_request, booted "K" [] [])
    = (Raise (InvalidRequest "bad apikey"), (status_request, sigma1)) /\
    m_session sigma1 = m_session (booted "K" [] []) /\
    exists new, m_log sigma1 = m_log (booted "K" [] []) ++ new /\
      http_calls_by CAuthorizedRequest new = 0.
Proof.
  eexists.
  eapply (@failed_login_sends_nothing bad_apikey status_request
            (booted "K" [] [])).
  vm_compute. reflexivity.
Defined.

Lemma failed_relogin_propagates_witness :
  let service := scripted_service [login_accepted "s1";
                                   api_error "no session with key s1";
                                   api_error "bad apikey"] in
  exists s,
    @AuthorizedRequest._make_request service
      (status_request, booted "K" [] [])
    = (Raise (InvalidRequest "bad apikey"), s) /\
    key (m_session s.2) = Some (VStr "s1") /\
    logged_in (m_session s.2) = true.
Proof.
  intros service. eexists.
  edestruct (@failed_relogin_propagates service status_request
               (booted "K" [] []))
    as (Hrun & Hsess & Hin & _).
  - reflexivity.
  - vm_compute. reflexivity.
  - vm_compute. reflexivity.
  - vm_compute. reflexivity.
  - vm_compute. reflexivity.
  - split; [exact Hrun|]. split; [|exact Hin].
    exact (f_equal key Hsess).
Defined.

Lemma logged_in_send_single_call_witness :
  exists s3,
    @AuthorizedRequest._make_request (answers api_success)
      (status_request, signed_in "K" "s0" [] [])
    = (Ok (VDict [("status", VStr "success"); ("jobs", VList [VInt 7])]), s3) /\
    m_session s3.2 = m_session (signed_in "K" "s0" [] []) /\
    exists new, m_log s3.2 = m_log (signed_in "K" "s0" [] []) ++ new /\
      http_calls new = 1 /\ http_calls_by CAuthorizedRequest new = 1.
Proof.
  eexists.
  eapply (@logged_in_send_single_call (answers api_success) status_request
            (signed_in "K" "s0" [] [])).
  - reflexivity.
  - reflexivity.
  - vm_compute. reflexivity.
  - vm_compute. reflexivity.
Defined.

Lemma session_key_reaches_payload_witness :
  let sigma := signed_in "K" "s0" [("job", VStr "7")] [("fmt", VStr "wcs")] in
  let sigma' := (AuthorizedRequest.set_session_field
                   (status_request, sigma)).2.2 in
  exists merged,
    @Request.payload (answers api_success) sigma' status_request
      = [("request-json", VStr (render (VDict merged)))] /\
    dict_get "session" merged = Some (VStr "s0") /\
    forall k', k' ≠ "session" ->
      dict_get k' merged
      = dict_get k' (dict_merge (deref sigma (data status_request))
                       [("fmt", VStr "wcs")]).
Proof.
  intros sigma.
  apply (@session_key_reaches_payload (answers api_success) status_request
           sigma (VStr "s0") [("fmt", VStr "wcs")]).
  - reflexivity.
  - done.
  - vm_compute. reflexivity.
  - apply dict_wf_singleton.
  - reflexivity.
Defined.

Lemma successful_send_state_witness :
  exists r' sigma',
    response r' = VDict [("status", VStr "success"); ("jobs", VList [VInt 7])] /\
    same_request status_request r' /\
    logged_in (m_session sigma') = true /\
    exists k, key (m_session sigma') = Some k /\
      dict_get "session" (deref sigma' (data status_request)) = Some k.
Proof.
  eexists _, _.
  eapply (@successful_send_state expired_once status_request _
            (booted "K" [] [])).
  vm_compute. reflexivity.
Defined.

Lemma session_invariant_witness :
  (@AuthorizedRequest._make_request expired_twice
     (status_request, booted "K" [] [])).1
  ≠ Raise (AttributeError "key").
Proof.
  refine (proj2 (proj2 (proj2 (@session_invariant expired_twice
                                 (booted "K" [] [])) _) status_request)).
  intros Hin. discriminate Hin.
Defined.

Lemma merge_layout_witness :
  let d := [("a", VInt 1); ("b", VInt 2)] in
  let s := [("c", VInt 3); ("a", VInt 4)] in
  dict_merge d s = [("a", VInt 4); ("b", VInt 2); ("c", VInt 3)] /\
  (dict_merge d s).*1 = d.*1 ++ filter (fun k => k ∉ d.*1) s.*1.
Proof.
  intros d s. split; [reflexivity|].
  apply (merge_layout d s); by apply dict_wf_pair.
Defined.

Lemma api_key_sources_witness :
  @Session.__init__ bad_apikey {[ "ASTROMETRY_API_KEY" := "abc" ]} VNone None
  = Ok (Session.fresh_session (VStr "abc")).
Proof.
  apply (proj1 (proj2 (proj2 (@api_key_sources bad_apikey
                                {[ "ASTROMETRY_API_KEY" := "abc" ]})))).
  vm_compute. reflexivity.
Defined.
